(** * Medical MCP server: the tools of [medical_mcp.py] and their properties

    The server is a set of fetch-and-format tools over five upstream HTTP
    services.  This development embeds the Python source shallowly:

    - [Py]: the fragment of the Python runtime the tools rely on (values as
      [json.loads] produces them, truthiness, [str()], subscripting, [dict.get],
      slices, exceptions);
    - [Re]: the fragment of the [re] module the source uses ([re.search] and
      [re.findall] over patterns built from literals, character classes,
      greedy repetition, one capture group and [$]);
    - [Soup]: the fragment of BeautifulSoup the scraper uses ([select],
      [select_one], [get_text(strip=True)], [Tag.get]);
    - [Http]: the requests a tool issues, threaded through a small monad that
      records every request;
    - [MedicalMcp]: the extractors and tools themselves, function by function.

    A Python [str] is modelled as a [string] whose characters are the code
    points below 256; in that range [\d] is [0-9] and [str.strip] removes the
    twelve characters listed in [is_space]. *)

From Stdlib Require Import String Ascii List ZArith NArith Bool Arith Lia.
From Stdlib Require Import DecimalString Permutation.
Import ListNotations.

Set Warnings "-register-all".

Open Scope list_scope.
Open Scope string_scope.

(* ================================================================== *)
(** * The Python runtime fragment *)
(* ================================================================== *)

Module Py.

(** ** Exceptions

    [CancelledError] stands for the classes that derive from [BaseException]
    only; every other class listed derives from [Exception]. *)

Inductive exn_class : Type :=
| KeyError
| TypeError
| AttributeError
| IndexError
| NameError
| JSONDecodeError
| HTTPError
| CancelledError.

(** An exception instance: its class and what [str(e)] prints. *)
Record exn : Type := Exn { exn_cls : exn_class; exn_str : string }.

Definition derives_from_Exception (c : exn_class) : bool :=
  match c with
  | CancelledError => false
  | _ => true
  end.

(** ** Evaluation outcome: a value, or a raised exception *)

Inductive outcome (A : Type) : Type :=
| Returned (a : A)
| Raised (e : exn).

Arguments Returned {A} a.
Arguments Raised {A} e.

Definition bind {A B : Type} (m : outcome A) (k : A -> outcome B) : outcome B :=
  match m with
  | Returned a => k a
  | Raised e => Raised e
  end.

Definition raise {A : Type} (c : exn_class) (msg : string) : outcome A :=
  Raised (Exn c msg).

(** ** Values

    A float is observed by the program in two ways only: its truth value and
    its [str()]; the model keeps exactly these. *)

Record pyfloat : Type := PyFloat { float_nonzero : bool; float_repr : string }.

Inductive pyval : Type :=
| PNone
| PBool (b : bool)
| PInt (z : Z)
| PFloat (f : pyfloat)
| PStr (s : string)
| PList (l : list pyval)
| PDict (d : list (string * pyval)).

(** ** Characters and strings *)

Definition code (c : ascii) : N := N_of_ascii c.

Definition is_digit (c : ascii) : bool :=
  ((48 <=? code c) && (code c <=? 57))%N.

(** [str.isspace] on the code points below 256. *)
Definition is_space (c : ascii) : bool :=
  (((9 <=? code c) && (code c <=? 13))
   || ((28 <=? code c) && (code c <=? 32))
   || (code c =? 133) || (code c =? 160))%N.

Fixpoint lstrip (s : string) : string :=
  match s with
  | EmptyString => EmptyString
  | String c s' => if is_space c then lstrip s' else s
  end.

Fixpoint rstrip (s : string) : string :=
  match s with
  | EmptyString => EmptyString
  | String c s' =>
      match rstrip s' with
      | EmptyString => if is_space c then EmptyString else String c EmptyString
      | r => String c r
      end
  end.

(** [s.strip()] *)
Definition strip (s : string) : string := rstrip (lstrip s).

(** [s[:n]] for [0 <= n] *)
Fixpoint str_firstn (n : nat) (s : string) : string :=
  match n, s with
  | S n', String c s' => String c (str_firstn n' s')
  | _, _ => EmptyString
  end.

Fixpoint chars (s : string) : list string :=
  match s with
  | EmptyString => []
  | String c s' => String c EmptyString :: chars s'
  end.

Fixpoint str_contains_char (c : ascii) (s : string) : bool :=
  match s with
  | EmptyString => false
  | String d s' => Ascii.eqb c d || str_contains_char c s'
  end.

(** [sub in s] *)
Fixpoint str_contains (sub s : string) : bool :=
  prefix sub s ||
  match s with
  | EmptyString => false
  | String _ s' => str_contains sub s'
  end.

(** [sep.join(l)] on strings *)
Fixpoint join (sep : string) (l : list string) : string :=
  match l with
  | [] => EmptyString
  | x :: l' =>
      match l' with
      | [] => x
      | _ => x ++ sep ++ join sep l'
      end
  end.

Definition str_of_Z (z : Z) : string := NilEmpty.string_of_int (Z.to_int z).
Definition str_of_nat (n : nat) : string := NilEmpty.string_of_uint (Nat.to_uint n).

Definition dquote : ascii := ascii_of_N 34.
Definition backslash : ascii := ascii_of_N 92.

(** The line feed that the source writes as a backslash followed by n. *)
Definition nl : string := String (ascii_of_N 10) EmptyString.

Definition hex_digit (n : N) : ascii :=
  if (n <? 10)%N then ascii_of_N (48 + n) else ascii_of_N (87 + n).

Definition printable (c : ascii) : bool :=
  negb ((code c <? 32) || ((127 <=? code c) && (code c <=? 160)) || (code c =? 173))%N.

Definition repr_char (quote c : ascii) : string :=
  if Ascii.eqb c quote || Ascii.eqb c backslash then String backslash (String c EmptyString)
  else if (code c =? 9)%N then String backslash "t"
  else if (code c =? 10)%N then String backslash "n"
  else if (code c =? 13)%N then String backslash "r"
  else if printable c then String c EmptyString
  else String backslash (String "x"%char
         (String (hex_digit (code c / 16)) (String (hex_digit (code c mod 16)) EmptyString))).

Fixpoint repr_chars (quote : ascii) (s : string) : string :=
  match s with
  | EmptyString => EmptyString
  | String c s' => repr_char quote c ++ repr_chars quote s'
  end.

(** [repr(s)] for a [str] *)
Definition repr_str (s : string) : string :=
  let quote :=
    if str_contains_char "'"%char s && negb (str_contains_char dquote s)
    then dquote else "'"%char in
  String quote (repr_chars quote s ++ String quote EmptyString).

(** ** [repr] and [str] of values *)

Fixpoint py_repr (v : pyval) : string :=
  match v with
  | PNone => "None"
  | PBool true => "True"
  | PBool false => "False"
  | PInt z => str_of_Z z
  | PFloat f => float_repr f
  | PStr s => repr_str s
  | PList l =>
      "[" ++ (fix items (l : list pyval) : string :=
                match l with
                | [] => ""
                | x :: l' =>
                    py_repr x ++ match l' with [] => "" | _ => ", " ++ items l' end
                end) l ++ "]"
  | PDict d =>
      "{" ++ (fix items (d : list (string * pyval)) : string :=
                match d with
                | [] => ""
                | (k, x) :: d' =>
                    repr_str k ++ ": " ++ py_repr x ++
                    match d' with [] => "" | _ => ", " ++ items d' end
                end) d ++ "}"
  end.

(** [str(v)], which is what an f-string field prints *)
Definition py_str (v : pyval) : string :=
  match v with
  | PStr s => s
  | _ => py_repr v
  end.

Definition type_name (v : pyval) : string :=
  match v with
  | PNone => "NoneType"
  | PBool _ => "bool"
  | PInt _ => "int"
  | PFloat _ => "float"
  | PStr _ => "str"
  | PList _ => "list"
  | PDict _ => "dict"
  end.

(** ** Truth value: [bool(v)] *)

Definition truthy (v : pyval) : bool :=
  match v with
  | PNone => false
  | PBool b => b
  | PInt z => negb (z =? 0)%Z
  | PFloat f => float_nonzero f
  | PStr s => negb (s =? "")
  | PList l => match l with [] => false | _ => true end
  | PDict d => match d with [] => false | _ => true end
  end.

(** ** Dictionaries: association lists in insertion order, keys distinct *)

Fixpoint lookup (k : string) (d : list (string * pyval)) : option pyval :=
  match d with
  | [] => None
  | (k', v) :: d' => if k =? k' then Some v else lookup k d'
  end.

Definition not_subscriptable {A : Type} (v : pyval) : outcome A :=
  raise TypeError ("'" ++ type_name v ++ "' object is not subscriptable").

(** [v[k]] for a string key [k] *)
Definition getitem (v : pyval) (k : string) : outcome pyval :=
  match v with
  | PDict d =>
      match lookup k d with
      | Some x => Returned x
      | None => raise KeyError (repr_str k)
      end
  | PList _ => raise TypeError "list indices must be integers or slices, not str"
  | PStr _ => raise TypeError "string indices must be integers, not 'str'"
  | _ => not_subscriptable v
  end.

(** [v[0]] *)
Definition getitem0 (v : pyval) : outcome pyval :=
  match v with
  | PList l =>
      match l with
      | x :: _ => Returned x
      | [] => raise IndexError "list index out of range"
      end
  | PStr s =>
      match s with
      | String c _ => Returned (PStr (String c EmptyString))
      | EmptyString => raise IndexError "string index out of range"
      end
  | PDict _ => raise KeyError "0"
  | _ => not_subscriptable v
  end.

(** [l[:n]] on a list, for any integer [n] *)
Definition list_slice_to {A : Type} (n : Z) (l : list A) : list A :=
  if (0 <=? n)%Z then firstn (Z.to_nat n) l
  else firstn (length l - Z.to_nat (- n)) l.

Definition str_slice_to (n : Z) (s : string) : string :=
  if (0 <=? n)%Z then str_firstn (Z.to_nat n) s
  else str_firstn (String.length s - Z.to_nat (- n)) s.

(** [v[:n]] *)
Definition slice_to (v : pyval) (n : Z) : outcome pyval :=
  match v with
  | PList l => Returned (PList (list_slice_to n l))
  | PStr s => Returned (PStr (str_slice_to n s))
  | PDict _ => raise TypeError "unhashable type: 'slice'"
  | _ => not_subscriptable v
  end.

(** [v.get(k, default)] *)
Definition get (v : pyval) (k : string) (default : pyval) : outcome pyval :=
  match v with
  | PDict d =>
      match lookup k d with
      | Some x => Returned x
      | None => Returned default
      end
  | _ => raise AttributeError
           ("'" ++ type_name v ++ "' object has no attribute 'get'")
  end.

(** [len(v)] *)
Definition len (v : pyval) : outcome nat :=
  match v with
  | PStr s => Returned (String.length s)
  | PList l => Returned (length l)
  | PDict d => Returned (length d)
  | _ => raise TypeError ("object of type '" ++ type_name v ++ "' has no len()")
  end.

(** The items a [for] loop, [enumerate] or [zip] draws from [v] *)
Definition iter (v : pyval) : outcome (list pyval) :=
  match v with
  | PList l => Returned l
  | PStr s => Returned (map PStr (chars s))
  | PDict d => Returned (map (fun kv => PStr (fst kv)) d)
  | _ => raise TypeError ("'" ++ type_name v ++ "' object is not iterable")
  end.

Fixpoint join_items (i : nat) (l : list pyval) : outcome (list string) :=
  match l with
  | [] => Returned []
  | PStr s :: l' => bind (join_items (S i) l') (fun r => Returned (s :: r))
  | x :: _ =>
      raise TypeError ("sequence item " ++ str_of_nat i ++
                       ": expected str instance, " ++ type_name x ++ " found")
  end.

(** [sep.join(v)] *)
Definition py_join (sep : string) (v : pyval) : outcome string :=
  match v with
  | PList l => bind (join_items 0 l) (fun r => Returned (join sep r))
  | PStr s => Returned (join sep (chars s))
  | PDict d => Returned (join sep (map fst d))
  | _ => raise TypeError "can only join an iterable"
  end.

(** [a or b] *)
Definition py_or (a b : pyval) : pyval := if truthy a then a else b.

End Py.

(* ================================================================== *)
(** * The fragment of [re] the source uses *)
(* ================================================================== *)

Module Re.

(** A pattern is a sequence of items, as the source's patterns are: single
    characters, a greedy [*] over one character class, the brackets of the
    one capture group, and [$].  [x+] is written [x x*], [x{4}] four times
    [x]. *)

Inductive atom : Type :=
| Lit (c : ascii)          (* the character itself *)
| Digit                    (* \d *)
| NotChar (c : ascii).     (* [^c] *)

Inductive item : Type :=
| One (a : atom)
| Star (a : atom)
| GroupOpen
| GroupClose
| Eol.                     (* $ *)

Definition pattern : Type := list item.

Definition atom_ok (a : atom) (c : ascii) : bool :=
  match a with
  | Lit d => Ascii.eqb c d
  | Digit => Py.is_digit c
  | NotChar d => negb (Ascii.eqb c d)
  end.

Fixpoint lit (s : string) : pattern :=
  match s with
  | EmptyString => []
  | String c s' => One (Lit c) :: lit s'
  end.

Definition plus (a : atom) : pattern := [One a; Star a].

Definition times (n : nat) (a : atom) : pattern := repeat (One a) n.

(** [$] without [re.MULTILINE]: the end of the text, or just before a line
    feed that ends the text. *)
Definition at_eol (s : string) : bool :=
  match s with
  | EmptyString => true
  | String c EmptyString => (Py.code c =? 10)%N
  | _ => false
  end.

Definition capture (ing : bool) (c : ascii) (r : string * string) : string * string :=
  if ing then (String c (fst r), snd r) else r.

(** Backtracking match of [p] at the start of [s].  [ing] says whether the
    position is inside the capture group.  The result is the text of the
    group and the text left after the whole match. *)
Fixpoint match_here (p : pattern) (ing : bool) (s : string) {struct p}
  : option (string * string) :=
  match p with
  | [] => Some (EmptyString, s)
  | GroupOpen :: p' => match_here p' true s
  | GroupClose :: p' => match_here p' false s
  | Eol :: p' => if at_eol s then match_here p' ing s else None
  | One a :: p' =>
      match s with
      | String c s' =>
          if atom_ok a c then option_map (capture ing c) (match_here p' ing s')
          else None
      | EmptyString => None
      end
  | Star a :: p' =>
      let k := match_here p' ing in
      (fix star (s : string) : option (string * string) :=
         match s with
         | String c s' =>
             if atom_ok a c then
               match star s' with
               | Some r => Some (capture ing c r)
               | None => k s
               end
             else k s
         | EmptyString => k s
         end) s
  end.

(** [re.search(p, s)], reduced to what the source reads off the match:
    [m.group(1)], or [None]. *)
Fixpoint search (p : pattern) (s : string) : option string :=
  match match_here p false s with
  | Some (g, _) => Some g
  | None =>
      match s with
      | EmptyString => None
      | String _ s' => search p s'
      end
  end.

Fixpoint findall_from (fuel : nat) (p : pattern) (s : string) : list string :=
  match fuel with
  | O => []
  | S fuel' =>
      let skip :=
        match s with
        | EmptyString => []
        | String _ s' => findall_from fuel' p s'
        end in
      match match_here p false s with
      | Some (g, rest) =>
          g :: (if (String.length rest <? String.length s)%nat
                then findall_from fuel' p rest else skip)
      | None => skip
      end
  end.

(** [re.findall(p, s)] for a pattern with one group: the group of every
    match, left to right, matches not overlapping. *)
Definition findall (p : pattern) (s : string) : list string :=
  findall_from (S (String.length s)) p s.

End Re.

(* ================================================================== *)
(** * The fragment of BeautifulSoup the scraper uses *)
(* ================================================================== *)

Module Soup.

(** An attribute value is a string, or, for [class] and the other
    multi-valued attributes, the list of its tokens. *)
Inductive attr_value : Type :=
| AttrStr (s : string)
| AttrList (l : list string).

Definition attrs : Type := list (string * attr_value).

(** The parse tree.  [Comment] stands for the string classes that
    [get_text] leaves out (comments, declarations, script and style text).
    Tag and attribute names are in lower case, as [html.parser] leaves them. *)
Inductive node : Type :=
| NavigableString (s : string)
| Comment (s : string)
| Tag (name : string) (a : attrs) (contents : list node).

(** A tag in its place: the tags around it, nearest first, then its own
    name, attributes and contents. *)
Record element : Type := Element {
  el_parents : list (string * attrs);
  el_name : string;
  el_attrs : attrs;
  el_contents : list node
}.

(** [BeautifulSoup(markup, 'html.parser')], given the nodes the parser made
    of the markup. *)
Definition BeautifulSoup (markup : list node) : element :=
  Element [] "[document]" [] markup.

Fixpoint attr_lookup (k : string) (a : attrs) : option attr_value :=
  match a with
  | [] => None
  | (k', v) :: a' => if k =? k' then Some v else attr_lookup k a'
  end.

(** CSS white space, which separates class names *)
Definition css_space (c : ascii) : bool :=
  ((Py.code c =? 32) || (Py.code c =? 9) || (Py.code c =? 10)
   || (Py.code c =? 12) || (Py.code c =? 13))%N.

(** The maximal runs of characters that are not white space; [cur] is the
    run being read, reversed. *)
Fixpoint tokens_from (cur : list ascii) (s : string) : list string :=
  let flush (rest : list string) :=
    match cur with
    | [] => rest
    | _ => string_of_list_ascii (rev cur) :: rest
    end in
  match s with
  | EmptyString => flush []
  | String c s' =>
      if css_space c then flush (tokens_from [] s')
      else tokens_from (c :: cur) s'
  end.

Definition classes (a : attrs) : list string :=
  match attr_lookup "class" a with
  | Some (AttrList l) => l
  | Some (AttrStr s) => tokens_from [] s
  | None => []
  end.

(** ** Selectors *)

Inductive simple : Type :=
| TypeSel (name : string)                  (* h3 *)
| ClassSel (c : string)                    (* .gs_r *)
| HasAttr (a : string)                     (* [data-rp] *)
| AttrContains (a : string) (sub : string). (* [class*="author"] *)

Definition compound : Type := list simple.

Inductive complex : Type :=
| Compound (c : compound)                  (* a[data-clk] *)
| Descendant (anc : complex) (c : compound). (* .gs_rt a *)

(** A selector list: the alternatives that commas separate. *)
Definition selector : Type := list complex.

Definition matches_simple (s : simple) (name : string) (a : attrs) : bool :=
  match s with
  | TypeSel n => name =? n
  | ClassSel c => existsb (String.eqb c) (classes a)
  | HasAttr k => match attr_lookup k a with Some _ => true | None => false end
  | AttrContains k sub =>
      match attr_lookup k a with
      | Some (AttrStr v) => Py.str_contains sub v
      | Some (AttrList l) => Py.str_contains sub (Py.join " " l)
      | None => false
      end
  end.

Definition matches_compound (c : compound) (name : string) (a : attrs) : bool :=
  forallb (fun s => matches_simple s name a) c.

(** The descendant combinator looks for its left side among all the tags
    around the candidate, whatever the tag [select] was called on. *)
Fixpoint matches_complex (sel : complex) (parents : list (string * attrs))
    (name : string) (a : attrs) {struct sel} : bool :=
  match sel with
  | Compound c => matches_compound c name a
  | Descendant anc c =>
      matches_compound c name a &&
      (fix up (ps : list (string * attrs)) : bool :=
         match ps with
         | [] => false
         | p :: ps' => matches_complex anc ps' (fst p) (snd p) || up ps'
         end) parents
  end.

Definition matches (sel : selector) (e : element) : bool :=
  existsb (fun c => matches_complex c (el_parents e) (el_name e) (el_attrs e)) sel.

(** ** Traversal *)

(** The tags of a subtree in document order, the root of the subtree first. *)
Fixpoint tags_of (parents : list (string * attrs)) (n : node) : list element :=
  match n with
  | Tag name a kids =>
      Element parents name a kids ::
      (fix go (ks : list node) : list element :=
         match ks with
         | [] => []
         | k :: ks' => (tags_of ((name, a) :: parents) k ++ go ks')%list
         end) kids
  | _ => []
  end.

(** [e.descendants], tags only *)
Definition descendants (e : element) : list element :=
  flat_map (tags_of ((el_name e, el_attrs e) :: el_parents e)) (el_contents e).

(** [e.select(sel)] *)
Definition select (sel : selector) (e : element) : list element :=
  filter (matches sel) (descendants e).

(** [e.select_one(sel)] *)
Definition select_one (sel : selector) (e : element) : option element :=
  hd_error (select sel e).

(** The text strings below a node, in document order *)
Fixpoint strings (n : node) : list string :=
  match n with
  | NavigableString s => [s]
  | Comment _ => []
  | Tag _ _ kids =>
      (fix go (ks : list node) : list string :=
         match ks with
         | [] => []
         | k :: ks' => (strings k ++ go ks')%list
         end) kids
  end.

(** [e.get_text(strip=True)]: every string stripped, the empty ones dropped,
    the rest joined with nothing between them. *)
Definition get_text_strip (e : element) : string :=
  String.concat ""
    (filter (fun s => negb (s =? ""))
       (map Py.strip (flat_map strings (el_contents e)))).

(** [e.get(key)] *)
Definition get (e : element) (key : string) : Py.pyval :=
  match attr_lookup key (el_attrs e) with
  | Some (AttrStr s) => Py.PStr s
  | Some (AttrList l) => Py.PList (map Py.PStr l)
  | None => Py.PNone
  end.

(** [a or b] on the results of [select_one]; a tag is always true. *)
Definition or_else {A : Type} (a b : option A) : option A :=
  match a with
  | Some _ => a
  | None => b
  end.

End Soup.

(* ================================================================== *)
(** * Requests *)
(* ================================================================== *)

Module Http.
Import Py.

Record request : Type := Request {
  req_url : string;
  req_params : list (string * string);
  req_headers : list (string * string)
}.

(** A response, by the three readings the tools take of it: [res.text],
    [res.json()] (which raises on a body that is not JSON), and the nodes
    [html.parser] makes of [res.text]. *)
Record response : Type := Response {
  resp_text : string;
  resp_json : outcome pyval;
  resp_markup : list Soup.node
}.

(** What is on the other side: every request is answered or fails. *)
Definition upstream : Type := request -> outcome response.

(** A computation that may issue requests: it reads the upstream, appends
    the requests it issues to the log, and returns or raises. *)
Definition io (A : Type) : Type :=
  upstream -> list request -> outcome A * list request.

Definition ret {A : Type} (a : A) : io A := fun _ log => (Returned a, log).

Definition iobind {A B : Type} (m : io A) (k : A -> io B) : io B :=
  fun u log =>
    match m u log with
    | (Returned a, log') => k a u log'
    | (Raised e, log') => (Raised e, log')
    end.

Definition lift {A : Type} (o : outcome A) : io A := fun _ log => (o, log).

(** [await client.get(url, params=..., headers=...)] *)
Definition client_get (r : request) : io response :=
  fun u log => (u r, (log ++ [r])%list).

(** [try: body / except Exception as e: return handler(str(e))] *)
Definition try_except (body : io string) (handler : string -> string) : io string :=
  fun u log =>
    match body u log with
    | (Returned s, log') => (Returned s, log')
    | (Raised e, log') =>
        if derives_from_Exception (exn_cls e)
        then (Returned (handler (exn_str e)), log')
        else (Raised e, log')
    end.

End Http.

Declare Scope py_scope.
Delimit Scope py_scope with py.
Notation "x <- m ;; k" := (Py.bind m (fun x => k))
  (at level 61, m at next level, right associativity) : py_scope.
Notation "x <~ m ;; k" := (Http.iobind m (fun x => k))
  (at level 61, m at next level, right associativity) : py_scope.
Open Scope py_scope.

(* ================================================================== *)
(** * [medical_mcp.py] *)
(* ================================================================== *)

(** The functions below follow the source in its order.  The server is
    started as a script ([python medical_mcp.py]); that is what binds [re]
    (line 477), which the scraper and the literature search use. *)

Module MedicalMcp.
Import Py Http.

(** ** Constants *)

Definition FDA_API_BASE : string := "https://api.fda.gov".
Definition WHO_API_BASE : string := "https://ghoapi.azureedge.net/api".
Definition RXNAV_API_BASE : string := "https://rxnav.nlm.nih.gov/REST".
Definition PUBMED_API_BASE : string := "https://eutils.ncbi.nlm.nih.gov/entrez/eutils".
Definition GOOGLE_SCHOLAR_API_BASE : string := "https://scholar.google.com/scholar".
Definition USER_AGENT : string := "medical-mcp/1.0".

Definition api_headers : list (string * string) := [("User-Agent", USER_AGENT)].

(** ** Shared control structure *)

(** [for index, x in enumerate(xs, start=index): result = body(index, x, result)] *)
Fixpoint for_enumerate {A : Type} (body : nat -> A -> string -> outcome string)
    (index : nat) (xs : list A) (result : string) : outcome string :=
  match xs with
  | [] => Returned result
  | x :: xs' => r <- body index x result ;; for_enumerate body (S index) xs' r
  end.

(** [if country:] on an optional string *)
Definition given (country : option string) : bool :=
  match country with
  | Some c => negb (c =? "")
  | None => false
  end.

(** The string an optional string holds when it is given *)
Definition text (country : option string) : string :=
  match country with
  | Some c => c
  | None => ""
  end.

(** [d.get(key) and d[key]], as a condition *)
Definition present (d : pyval) (key : string) : outcome bool :=
  g <- get d key PNone ;;
  if truthy g then v <- getitem d key ;; Returned (truthy v)
  else Returned false.

(** [f"{e[:n]}{'...' if len(e) > n else ''}"], the expression [e] being
    evaluated once for each field *)
Definition clipped (e : outcome pyval) (n : nat) : outcome string :=
  x <- e ;;
  head <- slice_to x (Z.of_nat n) ;;
  y <- e ;;
  k <- len y ;;
  Returned (py_str head ++ (if (n <? k)%nat then "..." else "")).

(** ** Utility functions *)

Definition search_drugs_request (query : string) (limit : Z) : request :=
  Request (FDA_API_BASE ++ "/drug/label.json")
          [("search", "openfda.brand_name:" ++ query); ("limit", str_of_Z limit)]
          api_headers.

Definition search_drugs (query : string) (limit : Z) : io pyval :=
  res <~ client_get (search_drugs_request query limit) ;;
  lift (j <- resp_json res ;; get j "results" (PList [])).

Definition get_drug_by_ndc (ndc : string) : io pyval :=
  res <~ client_get
           (Request (FDA_API_BASE ++ "/drug/label.json")
                    [("search", "openfda.product_ndc:" ++ ndc); ("limit", "1")]
                    api_headers) ;;
  lift (j <- resp_json res ;;
        results <- get j "results" (PList []) ;;
        if truthy results then getitem0 results else Returned PNone).

Definition health_request (indicator_name : string) (country : option string) : request :=
  let filter_query := "IndicatorName eq '" ++ indicator_name ++ "'" in
  let filter_query :=
    if given country
    then filter_query ++ " and SpatialDim eq '" ++ text country ++ "'"
    else filter_query in
  Request (WHO_API_BASE ++ "/Indicator")
          [("$filter", filter_query); ("$format", "json")]
          api_headers.

Definition get_health_indicators (indicator_name : string) (country : option string)
  : io pyval :=
  res <~ client_get (health_request indicator_name country) ;;
  lift (j <- resp_json res ;; get j "value" (PList [])).

Definition search_rxnorm_drugs (query : string) : io pyval :=
  res <~ client_get
           (Request (RXNAV_API_BASE ++ "/drugs.json") [("name", query)] api_headers) ;;
  lift (j <- resp_json res ;;
        g <- get j "drugGroup" (PDict []) ;;
        c <- get g "conceptGroup" (PList [PDict []]) ;;
        c0 <- getitem0 c ;;
        get c0 "concept" (PList [])).

(** [random_delay] draws a duration and sleeps; time is not part of the
    model, so nothing is left of it. *)
Definition random_delay : io unit := ret tt.

(** *** The academic-search scraper *)

Definition browser_headers : list (string * string) :=
  [("User-Agent", "Mozilla/5.0 (Macintosh; Intel Mac OS X 10_15_7) AppleWebKit/537.36 (KHTML, like Gecko) Chrome/120.0.0.0 Safari/537.36");
   ("Accept-Language", "en-US,en;q=0.9");
   ("Accept-Encoding", "gzip, deflate, br");
   ("Accept", "text/html,application/xhtml+xml,application/xml;q=0.9,image/webp,*/*;q=0.8");
   ("Cache-Control", "no-cache");
   ("Pragma", "no-cache")].

Definition cls (c : string) : Soup.complex := Soup.Compound [Soup.ClassSel c].
Definition class_has (sub : string) : Soup.selector :=
  [Soup.Compound [Soup.AttrContains "class" sub]].

(** [".gs_r, .gs_ri, [data-rp]"] *)
Definition block_selector : Soup.selector :=
  [cls "gs_r"; cls "gs_ri"; Soup.Compound [Soup.HasAttr "data-rp"]].

(** [".gs_rt a, .gs_rt, h3 a, h3"] *)
Definition title_selector : Soup.selector :=
  [Soup.Descendant (cls "gs_rt") [Soup.TypeSel "a"]; cls "gs_rt";
   Soup.Descendant (Soup.Compound [Soup.TypeSel "h3"]) [Soup.TypeSel "a"];
   Soup.Compound [Soup.TypeSel "h3"]].

(** [".gs_a, .gs_authors, .gs_venue"] *)
Definition authors_selector : Soup.selector :=
  [cls "gs_a"; cls "gs_authors"; cls "gs_venue"].

(** [".gs_rs, .gs_rs_a, .gs_snippet"] *)
Definition abstract_selector : Soup.selector :=
  [cls "gs_rs"; cls "gs_rs_a"; cls "gs_snippet"].

(** [".gs_fl a, .gs_fl"] *)
Definition citations_selector : Soup.selector :=
  [Soup.Descendant (cls "gs_fl") [Soup.TypeSel "a"]; cls "gs_fl"].

(** [r"(\d{4})"] *)
Definition year_re : Re.pattern :=
  ([Re.GroupOpen] ++ Re.times 4 Re.Digit ++ [Re.GroupClose])%list.

(** [r"- ([^-]+)$"] *)
Definition dash_re : Re.pattern :=
  (Re.lit "- " ++ [Re.GroupOpen] ++ Re.plus (Re.NotChar "-") ++ [Re.GroupClose; Re.Eol])%list.

(** [r", ([^,]+)$"] *)
Definition comma_re : Re.pattern :=
  (Re.lit ", " ++ [Re.GroupOpen] ++ Re.plus (Re.NotChar ",") ++ [Re.GroupClose; Re.Eol])%list.

(** [r"in ([^,]+)"] *)
Definition in_re : Re.pattern :=
  (Re.lit "in " ++ [Re.GroupOpen] ++ Re.plus (Re.NotChar ",") ++ [Re.GroupClose])%list.

(** [next((m.group(1) for m in ms if m), None)] *)
Fixpoint first_match (ms : list (option string)) : option string :=
  match ms with
  | [] => None
  | Some g :: _ => Some g
  | None :: ms' => first_match ms'
  end.

Definition text_of (e : option Soup.element) : string :=
  match e with
  | Some t => Soup.get_text_strip t
  | None => ""
  end.

(** Lines 180-183: the year of a candidate. *)
Definition derive_year (authors title abstract : string) : string :=
  let year := "" in
  let year_match :=
    first_match (map (Re.search year_re) [authors; title; abstract]) in
  match year_match with
  | Some y => if negb (y =? "") then y else year
  | None => year
  end.

(** Lines 185-188: the journal of a candidate. *)
Definition derive_journal (authors : string) : string :=
  let journal := "" in
  let journal_match :=
    first_match [Re.search dash_re authors; Re.search comma_re authors;
                 Re.search in_re authors] in
  match journal_match with
  | Some j => if negb (j =? "") then strip j else journal
  | None => journal
  end.

(** Line 167 *)
Definition title_element_of (element : Soup.element) : option Soup.element :=
  Soup.or_else
    (Soup.or_else (Soup.select_one title_selector element)
       (Soup.select_one [Soup.Compound [Soup.TypeSel "a"; Soup.HasAttr "data-clk"]] element))
    (Soup.select_one [Soup.Compound [Soup.TypeSel "h3"]] element).

(** Line 171 *)
Definition authors_element_of (element : Soup.element) : option Soup.element :=
  Soup.or_else
    (Soup.or_else (Soup.select_one authors_selector element)
       (Soup.select_one (class_has "author") element))
    (Soup.select_one (class_has "venue") element).

(** Line 174 *)
Definition abstract_element_of (element : Soup.element) : option Soup.element :=
  Soup.or_else
    (Soup.or_else (Soup.select_one abstract_selector element)
       (Soup.select_one (class_has "snippet") element))
    (Soup.select_one (class_has "abstract") element).

(** Line 177 *)
Definition citations_element_of (element : Soup.element) : option Soup.element :=
  Soup.or_else
    (Soup.or_else (Soup.select_one citations_selector element)
       (Soup.select_one (class_has "citation") element))
    (Soup.select_one
       [Soup.Compound [Soup.TypeSel "a"; Soup.AttrContains "href" "cites"]] element).

(** Line 168: the title of a candidate block *)
Definition block_title (element : Soup.element) : string :=
  text_of (title_element_of element).

(** Line 169 *)
Definition block_url (element : Soup.element) : pyval :=
  match title_element_of element with
  | Some t => Soup.get t "href"
  | None => PStr ""
  end.

(** Lines 191-199: the record of a candidate block *)
Definition block_record (element : Soup.element) : pyval :=
  let title := block_title element in
  let authors := text_of (authors_element_of element) in
  let abstract := text_of (abstract_element_of element) in
  let citations := text_of (citations_element_of element) in
  PDict [("title", PStr title); ("authors", PStr authors);
         ("abstract", PStr abstract);
         ("journal", PStr (derive_journal authors));
         ("year", PStr (derive_year authors title abstract));
         ("citations", PStr citations);
         ("url", block_url element)].

(** The body of the loop over the candidate blocks (lines 167-199): the list
    with the record of [element] appended, or the list as it was. *)
Definition scrape_block (results : list pyval) (element : Soup.element) : list pyval :=
  let title := block_title element in
  if negb (title =? "") && (5 <? String.length title)%nat
  then (results ++ [block_record element])%list
  else results.

(** The blocks the scraper goes through: [soup.select(".gs_r, .gs_ri, [data-rp]")]. *)
Definition candidate_blocks (soup : Soup.element) : list Soup.element :=
  Soup.select block_selector soup.

Definition scholar_request (query : string) : request :=
  Request (GOOGLE_SCHOLAR_API_BASE ++ "?q=" ++ query ++ "&hl=en") [] browser_headers.

Definition search_google_scholar (query : string) : io pyval :=
  _ <~ random_delay ;;
  res <~ client_get (scholar_request query) ;;
  let soup := Soup.BeautifulSoup (resp_markup res) in
  ret (PList (fold_left scrape_block (candidate_blocks soup) [])).

(** *** The literature search *)

(** [r'<PMID[^>]*>(\d+)<\/PMID>'] *)
Definition pmid_re : Re.pattern :=
  (Re.lit "<PMID" ++ [Re.Star (Re.NotChar ">")] ++ Re.lit ">" ++ [Re.GroupOpen]
   ++ Re.plus Re.Digit ++ [Re.GroupClose] ++ Re.lit "</PMID>")%list.

(** [r'<ArticleTitle[^>]*>([^<]+)<\/ArticleTitle>'] *)
Definition article_title_re : Re.pattern :=
  (Re.lit "<ArticleTitle" ++ [Re.Star (Re.NotChar ">")] ++ Re.lit ">" ++ [Re.GroupOpen]
   ++ Re.plus (Re.NotChar "<") ++ [Re.GroupClose] ++ Re.lit "</ArticleTitle>")%list.

Definition esearch_request (query : string) (max_results : Z) : request :=
  Request (PUBMED_API_BASE ++ "/esearch.fcgi")
          [("db", "pubmed"); ("term", query); ("retmode", "json");
           ("retmax", str_of_Z max_results)]
          api_headers.

Definition efetch_request (ids : string) : request :=
  Request (PUBMED_API_BASE ++ "/efetch.fcgi")
          [("db", "pubmed"); ("id", ids); ("retmode", "xml")]
          api_headers.

(** [search_res.json().get("esearchresult", {}).get("idlist", [])] *)
Definition esearch_idlist (search_res : response) : outcome pyval :=
  j <- resp_json search_res ;;
  r <- get j "esearchresult" (PDict []) ;;
  get r "idlist" (PList []).

Definition pubmed_article (m : string * string) : pyval :=
  PDict [("pmid", PStr (fst m)); ("title", PStr (snd m));
         ("abstract", PStr "Abstract not available in this format");
         ("authors", PList []);
         ("journal", PStr "Journal information not available");
         ("publication_date", PStr "Date not available")].

Definition search_pubmed_articles (query : string) (max_results : Z) : io pyval :=
  search_res <~ client_get (esearch_request query max_results) ;;
  id_list <~ lift (esearch_idlist search_res) ;;
  if negb (truthy id_list) then ret (PList [])
  else
    ids <~ lift (py_join "," id_list) ;;
    fetch_res <~ client_get (efetch_request ids) ;;
    let xml_text := resp_text fetch_res in
    let pmid_matches := Re.findall pmid_re xml_text in
    let title_matches := Re.findall article_title_re xml_text in
    ret (PList (map pubmed_article (combine pmid_matches title_matches))).

(** ** Tools *)

(** [drug['openfda'].get(field, [default])[0]] *)
Definition openfda_field (drug : pyval) (field default : string) : outcome pyval :=
  o <- getitem drug "openfda" ;;
  g <- get o field (PList [PStr default]) ;;
  getitem0 g.

(** The body of the loop of [search_drugs_tool] (lines 265-274) *)
Definition drug_entry (index : nat) (drug : pyval) (result : string) : outcome string :=
  v <- openfda_field drug "brand_name" "Unknown Brand" ;;
  let result := result ++ str_of_nat index ++ ". **" ++ py_str v ++ "**" ++ nl in
  v <- openfda_field drug "generic_name" "Not specified" ;;
  let result := result ++ "   Generic Name: " ++ py_str v ++ nl in
  v <- openfda_field drug "manufacturer_name" "Not specified" ;;
  let result := result ++ "   Manufacturer: " ++ py_str v ++ nl in
  v <- openfda_field drug "route" "Not specified" ;;
  let result := result ++ "   Route: " ++ py_str v ++ nl in
  v <- openfda_field drug "dosage_form" "Not specified" ;;
  let result := result ++ "   Dosage Form: " ++ py_str v ++ nl in
  c <- present drug "purpose" ;;
  result <- (if c : bool then
               t <- clipped (p <- getitem drug "purpose" ;; getitem0 p) 200 ;;
               Returned (result ++ "   Purpose: " ++ t ++ nl)
             else Returned result) ;;
  v <- getitem drug "effective_time" ;;
  Returned (result ++ "   Last Updated: " ++ py_str v ++ nl ++ nl).

Definition search_drugs_tool (query : string) (limit : Z) : io string :=
  try_except
    (drugs <~ search_drugs query limit ;;
     lift
       (if negb (truthy drugs) then
          Returned ("No drugs found matching '" ++ query ++ "'. Try a different search term.")
        else
          let result := "**Drug Search Results for '" ++ query ++ "'**" ++ nl ++ nl in
          n <- len drugs ;;
          let result := result ++ "Found " ++ str_of_nat n ++ " drug(s)" ++ nl ++ nl in
          items <- iter drugs ;;
          for_enumerate drug_entry 1 items result))
    (fun e => "Error searching drugs: " ++ e).

(** [f"{index}. {purpose}\n"] *)
Definition numbered (index : nat) (purpose : pyval) (result : string) : outcome string :=
  Returned (result ++ str_of_nat index ++ ". " ++ py_str purpose ++ nl).

(** [f"{index}. {warning[:300]}{'...' if len(warning) > 300 else ''}\n"] *)
Definition numbered_clipped (index : nat) (warning : pyval) (result : string)
  : outcome string :=
  t <- clipped (Returned warning) 300 ;;
  Returned (result ++ str_of_nat index ++ ". " ++ t ++ nl).

(** One of the three optional sections of [get_drug_details_tool] *)
Definition details_section (drug : pyval) (key heading : string)
    (line : nat -> pyval -> string -> outcome string) (result : string) : outcome string :=
  c <- present drug key ;;
  if c : bool then
    let result := result ++ heading ++ nl in
    v <- getitem drug key ;;
    items <- iter v ;;
    result <- for_enumerate line 1 items result ;;
    Returned (result ++ nl)
  else Returned result.

Definition get_drug_details_tool (ndc : string) : io string :=
  try_except
    (drug <~ get_drug_by_ndc ndc ;;
     lift
       (if negb (truthy drug) then Returned ("No drug found with NDC: " ++ ndc)
        else
          let result := "**Drug Details for NDC: " ++ ndc ++ "**" ++ nl ++ nl in
          let result := result ++ "**Basic Information:**" ++ nl in
          v <- openfda_field drug "brand_name" "Not specified" ;;
          let result := result ++ "- Brand Name: " ++ py_str v ++ nl in
          v <- openfda_field drug "generic_name" "Not specified" ;;
          let result := result ++ "- Generic Name: " ++ py_str v ++ nl in
          v <- openfda_field drug "manufacturer_name" "Not specified" ;;
          let result := result ++ "- Manufacturer: " ++ py_str v ++ nl in
          v <- openfda_field drug "route" "Not specified" ;;
          let result := result ++ "- Route: " ++ py_str v ++ nl in
          v <- openfda_field drug "dosage_form" "Not specified" ;;
          let result := result ++ "- Dosage Form: " ++ py_str v ++ nl in
          v <- getitem drug "effective_time" ;;
          let result := result ++ "- Last Updated: " ++ py_str v ++ nl ++ nl in
          result <- details_section drug "purpose" "**Purpose/Uses:**" numbered result ;;
          result <- details_section drug "warnings" "**Warnings:**" numbered_clipped result ;;
          details_section drug "drug_interactions" "**Drug Interactions:**"
            numbered_clipped result))
    (fun e => "Error fetching drug details: " ++ e).

(** The body of the loop of [get_health_statistics_tool] (lines 353-358) *)
Definition indicator_entry (index : nat) (ind : pyval) (result : string) : outcome string :=
  s <- getitem ind "SpatialDim" ;;
  t <- getitem ind "TimeDim" ;;
  let result := result ++ str_of_nat index ++ ". **" ++ py_str s ++ "** ("
                       ++ py_str t ++ ")" ++ nl in
  v <- getitem ind "Value" ;;
  c <- getitem ind "Comments" ;;
  let result := result ++ "   Value: " ++ py_str v ++ " "
                       ++ py_str (py_or c (PStr "")) ++ nl in
  n <- getitem ind "NumericValue" ;;
  let result := result ++ "   Numeric Value: " ++ py_str n ++ nl in
  low <- get ind "Low" PNone ;;
  both <- (if truthy low then high <- get ind "High" PNone ;; Returned (truthy high)
           else Returned false) ;;
  result <- (if both : bool then
               low <- getitem ind "Low" ;;
               high <- getitem ind "High" ;;
               Returned (result ++ "   Range: " ++ py_str low ++ " - " ++ py_str high ++ nl)
             else Returned result) ;;
  d <- getitem ind "Date" ;;
  Returned (result ++ "   Date: " ++ py_str d ++ nl ++ nl).

Definition get_health_statistics_tool (indicator : string) (country : option string)
    (limit : Z) : io string :=
  try_except
    (indicators <~ get_health_indicators indicator country ;;
     lift
       (if negb (truthy indicators) then
          Returned ("No health indicators found for '" ++ indicator ++ "'"
                    ++ (if given country then " in " ++ text country else "")
                    ++ ". Try a different search term.")
        else
          let result := "**Health Statistics: " ++ indicator ++ "**" ++ nl ++ nl in
          let result :=
            if given country then result ++ "Country: " ++ text country ++ nl
            else result in
          n <- len indicators ;;
          let result := result ++ "Found " ++ str_of_nat n ++ " data points" ++ nl ++ nl in
          shown <- slice_to indicators limit ;;
          items <- iter shown ;;
          for_enumerate indicator_entry 1 items result))
    (fun e => "Error fetching health statistics: " ++ e).

(** The body of the loop of [search_medical_literature_tool] (lines 386-392) *)
Definition article_entry (index : nat) (article : pyval) (result : string) : outcome string :=
  v <- getitem article "title" ;;
  let result := result ++ str_of_nat index ++ ". **" ++ py_str v ++ "**" ++ nl in
  v <- getitem article "pmid" ;;
  let result := result ++ "   PMID: " ++ py_str v ++ nl in
  v <- getitem article "journal" ;;
  let result := result ++ "   Journal: " ++ py_str v ++ nl in
  v <- getitem article "publication_date" ;;
  let result := result ++ "   Publication Date: " ++ py_str v ++ nl in
  doi <- get article "doi" PNone ;;
  result <- (if truthy doi then
               v <- getitem article "doi" ;;
               Returned (result ++ "   DOI: " ++ py_str v ++ nl)
             else Returned result) ;;
  Returned (result ++ nl).

Definition no_articles_message (query : string) : string :=
  "No medical articles found for '" ++ query ++ "'. Try a different search term.".

Definition search_medical_literature_tool (query : string) (max_results : Z) : io string :=
  try_except
    (articles <~ search_pubmed_articles query max_results ;;
     lift
       (if negb (truthy articles) then Returned (no_articles_message query)
        else
          let result := "**Medical Literature Search: '" ++ query ++ "'**" ++ nl ++ nl in
          n <- len articles ;;
          let result := result ++ "Found " ++ str_of_nat n ++ " article(s)" ++ nl ++ nl in
          items <- iter articles ;;
          for_enumerate article_entry 1 items result))
    (fun e => "Error searching medical literature: " ++ e).

(** The body of the loop of [search_drug_nomenclature_tool] (lines 419-425) *)
Definition concept_entry (index : nat) (drug : pyval) (result : string) : outcome string :=
  v <- getitem drug "name" ;;
  let result := result ++ str_of_nat index ++ ". **" ++ py_str v ++ "**" ++ nl in
  v <- getitem drug "rxcui" ;;
  let result := result ++ "   RxCUI: " ++ py_str v ++ nl in
  v <- getitem drug "tty" ;;
  let result := result ++ "   Term Type: " ++ py_str v ++ nl in
  v <- getitem drug "language" ;;
  let result := result ++ "   Language: " ++ py_str v ++ nl in
  c <- present drug "synonym" ;;
  result <- (if c : bool then
               syn <- getitem drug "synonym" ;;
               first3 <- slice_to syn 3 ;;
               joined <- py_join ", " first3 ;;
               syn <- getitem drug "synonym" ;;
               k <- len syn ;;
               Returned (result ++ "   Synonyms: " ++ joined
                                ++ (if (3 <? k)%nat then "..." else "") ++ nl)
             else Returned result) ;;
  Returned (result ++ nl).

Definition search_drug_nomenclature_tool (query : string) : io string :=
  try_except
    (drugs <~ search_rxnorm_drugs query ;;
     lift
       (if negb (truthy drugs) then
          Returned ("No drugs found in RxNorm database for '" ++ query
                    ++ "'. Try a different search term.")
        else
          let result := "**RxNorm Drug Search: '" ++ query ++ "'**" ++ nl ++ nl in
          n <- len drugs ;;
          let result := result ++ "Found " ++ str_of_nat n ++ " drug(s)" ++ nl ++ nl in
          items <- iter drugs ;;
          for_enumerate concept_entry 1 items result))
    (fun e => "Error searching RxNorm: " ++ e).

(** [if article.get(key): result += f"   {label}: {article[key]}\n"] *)
Definition optional_line (article : pyval) (key label : string) (result : string)
  : outcome string :=
  g <- get article key PNone ;;
  if truthy g then
    v <- getitem article key ;;
    Returned (result ++ "   " ++ label ++ ": " ++ py_str v ++ nl)
  else Returned result.

(** The body of the loop of [search_google_scholar_tool] (lines 452-465) *)
Definition scholar_entry (index : nat) (article : pyval) (result : string) : outcome string :=
  v <- getitem article "title" ;;
  let result := result ++ str_of_nat index ++ ". **" ++ py_str v ++ "**" ++ nl in
  result <- optional_line article "authors" "Authors" result ;;
  result <- optional_line article "journal" "Journal" result ;;
  result <- optional_line article "year" "Year" result ;;
  result <- optional_line article "citations" "Citations" result ;;
  result <- optional_line article "url" "URL" result ;;
  g <- get article "abstract" PNone ;;
  result <- (if truthy g then
               t <- clipped (getitem article "abstract") 300 ;;
               Returned (result ++ "   Abstract: " ++ t ++ nl)
             else Returned result) ;;
  Returned (result ++ nl).

Definition search_google_scholar_tool (query : string) : io string :=
  try_except
    (articles <~ search_google_scholar query ;;
     lift
       (if negb (truthy articles) then
          Returned ("No academic articles found for '" ++ query
                    ++ "'. This could be due to:" ++ nl
                    ++ "- No results matching your query" ++ nl
                    ++ "- Google Scholar rate limiting" ++ nl
                    ++ "- Network connectivity issues" ++ nl ++ nl
                    ++ "Try refining your search terms or try again later.")
        else
          let result := "**Google Scholar Search: '" ++ query ++ "'**" ++ nl ++ nl in
          n <- len articles ;;
          let result := result ++ "Found " ++ str_of_nat n ++ " article(s)" ++ nl ++ nl in
          items <- iter articles ;;
          for_enumerate scholar_entry 1 items result))
    (fun e => "Error searching Google Scholar: " ++ e
              ++ ". This might be due to rate limiting or network issues. Please try again later.").

End MedicalMcp.

(* ================================================================== *)
(** * The vocabulary of the properties *)
(* ================================================================== *)

Module Claims.
Import Py Http MedicalMcp.

(** ** Texts *)

Fixpoint str_forallb (p : ascii -> bool) (s : string) : bool :=
  match s with
  | EmptyString => true
  | String c s' => p c && str_forallb p s'
  end.

(** Four characters, all of them digits *)
Definition four_digits (y : string) : Prop :=
  String.length y = 4%nat /\ str_forallb is_digit y = true.

(** [y] is the leftmost window of four digits of [s]. *)
Definition first_four_digits (s y : string) : Prop :=
  four_digits y /\
  exists pre post,
    s = pre ++ y ++ post /\
    forall pre' y' post',
      s = pre' ++ y' ++ post' -> four_digits y' ->
      (String.length pre <= String.length pre')%nat.

(** No four characters in a row of [s] are all digits. *)
Definition no_four_digits (s : string) : Prop :=
  forall pre y post, s = pre ++ y ++ post -> ~ four_digits y.

(** The lengths of the maximal runs of digits of [s], left to right; [cur]
    is the length of the run being read. *)
Fixpoint digit_runs_from (cur : nat) (s : string) : list nat :=
  let flush (rest : list nat) :=
    match cur with
    | O => rest
    | _ => cur :: rest
    end in
  match s with
  | EmptyString => flush []
  | String c s' =>
      if is_digit c then digit_runs_from (S cur) s'
      else flush (digit_runs_from O s')
  end.

(** [s] has a run of exactly four digits: four digits with no digit before
    or after them. *)
Definition has_run_of_exactly_four (s : string) : bool :=
  existsb (Nat.eqb 4) (digit_runs_from O s).

(** The shape the two tail patterns share: [c], a space, then the group
    [[^c]+] up to [$]. *)
Definition tail_pattern (c : ascii) : Re.pattern :=
  [Re.One (Re.Lit c); Re.One (Re.Lit " "); Re.GroupOpen; Re.One (Re.NotChar c);
   Re.Star (Re.NotChar c); Re.GroupClose; Re.Eol].

(** [s] ends with [sep] followed by [j], where [j] is not empty and does
    not contain the character [c]. *)
Definition tail_after (sep : string) (c : ascii) (s j : string) : Prop :=
  exists pre, s = pre ++ sep ++ j /\ j <> "" /\ str_contains_char c j = false.

(** [j] is what follows the leftmost ["in "] of [s] that a character other
    than a comma follows: the characters up to the next comma or the end. *)
Definition phrase_after_in (s j : string) : Prop :=
  exists pre post,
    s = pre ++ "in " ++ j ++ post /\
    j <> "" /\ str_contains_char "," j = false /\
    (post = "" \/ exists r, post = String "," r) /\
    forall pre' c r,
      s = pre' ++ "in " ++ String c r -> c <> ","%char ->
      (String.length pre <= String.length pre')%nat.

Definition is_word_char (c : ascii) : bool :=
  ((48 <=? code c) && (code c <=? 57) || (65 <=? code c) && (code c <=? 90)
   || (97 <=? code c) && (code c <=? 122) || (code c =? 95))%N.

(** [w] occurs in [s] at the start of a word: at the start of [s] or after
    a character that is not a letter, a digit or an underscore.  [inside]
    says whether the character before [s] is such a character. *)
Fixpoint occurs_as_word (w : string) (inside : bool) (s : string) : bool :=
  (negb inside && prefix w s) ||
  match s with
  | EmptyString => false
  | String c s' => occurs_as_word w (is_word_char c) s'
  end.

(** ** Selection by ordered fallbacks: each selector is consulted only if
    the ones before it matched nothing. *)
Fixpoint select_with_fallbacks (sels : list Soup.selector) (e : Soup.element)
  : list Soup.element :=
  match sels with
  | [] => []
  | s :: rest =>
      match Soup.select s e with
      | [] => select_with_fallbacks rest e
      | found => found
      end
  end.

(** The three alternatives of the block selector, one by one *)
Definition block_alternatives : list Soup.selector :=
  map (fun c => [c]) block_selector.

(** A page with one block for each alternative of the block selector *)
Definition three_blocks : Soup.element :=
  Soup.BeautifulSoup
    [Soup.Tag "div" [("class", Soup.AttrList ["gs_r"])] [];
     Soup.Tag "div" [("class", Soup.AttrList ["gs_ri"])] [];
     Soup.Tag "div" [("data-rp", Soup.AttrStr "0")] []].

(** ** Exceptions at the tool boundary *)

Definition is_Exception (e : exn) : Prop :=
  derives_from_Exception (exn_cls e) = true.

(** An upstream whose failures (a request that fails, a body that is not
    JSON) are instances of [Exception]. *)
Definition fails_with_Exception (u : upstream) : Prop :=
  forall r,
    match u r with
    | Raised e => is_Exception e
    | Returned res =>
        match resp_json res with
        | Raised e => is_Exception e
        | Returned _ => True
        end
    end.

(** ** Records *)

Definition field (d : list (string * pyval)) (k : string) : pyval :=
  match lookup k d with
  | Some v => v
  | None => PNone
  end.

(** The number zero, as an int or as a float *)
Definition is_zero (v : pyval) : bool :=
  match v with
  | PInt z => (z =? 0)%Z
  | PFloat f => negb (float_nonzero f)
  | _ => false
  end.

(** What the drug formatters print for a field of [openfda]: the first
    name listed, or the placeholder when the field is missing. *)
Definition shown (o : list (string * pyval)) (k placeholder : string) : string :=
  match lookup k o with
  | Some (PList (x :: _)) => py_str x
  | _ => placeholder
  end.

(** A field of [openfda] is missing, or lists at least one name. *)
Definition listed_or_missing (o : list (string * pyval)) (k : string) : Prop :=
  lookup k o = None \/ exists x rest, lookup k o = Some (PList (x :: rest)).

(** The header of the health-statistics report for [n] records *)
Definition statistics_header (indicator : string) (country : option string) (n : nat)
  : string :=
  ("**Health Statistics: " ++ indicator ++ "**" ++ nl ++ nl)
  ++ (if given country then "Country: " ++ text country ++ nl else "")
  ++ "Found " ++ str_of_nat n ++ " data points" ++ nl ++ nl.

(** ** Sample upstreams *)

Definition sample_drug (k : nat) : pyval :=
  PDict [("openfda", PDict [("brand_name", PList [PStr ("Brand " ++ str_of_nat k)])]);
         ("effective_time", PStr "20200101")].

Definition json_response (j : pyval) : response := Response "" (Returned j) [].

(** A drug-label source that answers every request with ten records *)
Definition ten_drugs : upstream :=
  fun _ => Returned (json_response (PDict [("results", PList (map sample_drug (seq 1 10)))])).

(** A drug record with a generic name and no brand name *)
Definition unbranded_drug : pyval :=
  PDict [("openfda", PDict [("generic_name", PList [PStr "ibuprofen"])]);
         ("effective_time", PStr "20200101")].

(** A drug record with a brand name only *)
Definition brand_only_drug : pyval :=
  PDict [("openfda", PDict [("brand_name", PList [PStr "Advil"])]);
         ("effective_time", PStr "20200101")].

Definition sample_indicator (low high : pyval) : list (string * pyval) :=
  [("SpatialDim", PStr "USA"); ("TimeDim", PInt 2019); ("Value", PStr "78.5");
   ("Comments", PNone); ("NumericValue", PFloat (PyFloat true "78.5"));
   ("Low", low); ("High", high); ("Date", PStr "2020-12-04")].

(** A health-statistics source that answers every request with three records *)
Definition three_indicators : upstream :=
  fun _ => Returned (json_response
    (PDict [("value", PList [PDict (sample_indicator (PInt 70) (PInt 80));
                             PDict (sample_indicator (PInt 0) (PInt 80));
                             PInt 7])])).

(** A literature source whose search finds no identifier *)
Definition no_identifiers : upstream :=
  fun _ => Returned (json_response
    (PDict [("esearchresult", PDict [("idlist", PList [])])])).

(** A literature source that answers the search with two identifiers and
    the fetch with three articles *)
Definition three_articles : upstream :=
  fun r =>
    if req_url r =? PUBMED_API_BASE ++ "/esearch.fcgi"
    then Returned (json_response
           (PDict [("esearchresult", PDict [("idlist", PList [PStr "11"; PStr "12"])])]))
    else Returned (Response
           "<PMID Version=1>11</PMID><ArticleTitle>One</ArticleTitle><PMID>12</PMID><ArticleTitle>Two</ArticleTitle><PMID>13</PMID><ArticleTitle>Three</ArticleTitle>"
           (raise JSONDecodeError "Expecting value: line 1 column 1 (char 0)") []).

(** A drug-label source whose records are not records *)
Definition malformed_drugs : upstream :=
  fun _ => Returned (json_response (PDict [("results", PList [PInt 7])])).

(** An upstream that never answers *)
Definition unreachable : upstream :=
  fun _ => raise HTTPError "All connection attempts failed".

(** A result page with one proper block and one block whose title is short *)
Definition two_blocks_page : list Soup.node :=
  [Soup.Tag "div" [("class", Soup.AttrList ["gs_ri"])]
     [Soup.Tag "h3" [("class", Soup.AttrList ["gs_rt"])]
        [Soup.Tag "a" [("href", Soup.AttrStr "https://example.org/a")]
           [Soup.NavigableString "Aspirin in primary prevention"]];
      Soup.Tag "div" [("class", Soup.AttrList ["gs_a"])]
        [Soup.NavigableString "J Smith - Nature, 2020"]];
   Soup.Tag "div" [("class", Soup.AttrList ["gs_ri"])]
     [Soup.Tag "h3" [("class", Soup.AttrList ["gs_rt"])] [Soup.NavigableString "Cited"];
      Soup.Tag "div" [("class", Soup.AttrList ["gs_a"])]
        [Soup.NavigableString "K Jones, Cell Press"]]].

Definition scholar_page : upstream :=
  fun _ => Returned (Response "" (raise JSONDecodeError "Expecting value") two_blocks_page).

(** The six orders in which the three alternatives can be tried *)
Definition fallback_orders : list (list Soup.selector) :=
  match block_alternatives with
  | [a; b; c] => [[a; b; c]; [a; c; b]; [b; a; c]; [b; c; a]; [c; a; b]; [c; b; a]]
  | _ => []
  end.

(** The test of the block selector, spelled out *)
Definition is_block (e : Soup.element) : bool :=
  existsb (String.eqb "gs_r") (Soup.classes (Soup.el_attrs e))
  || existsb (String.eqb "gs_ri") (Soup.classes (Soup.el_attrs e))
  || match Soup.attr_lookup "data-rp" (Soup.el_attrs e) with
     | Some _ => true
     | None => false
     end.

(** ** Outcomes *)

(** An evaluation that returns, or raises an instance of [Exception] *)
Definition raises_only_Exception {A : Type} (o : outcome A) : Prop :=
  match o with
  | Returned _ => True
  | Raised e => is_Exception e
  end.

(** Against [u], [m] returns a value that satisfies [P], or raises an
    instance of [Exception]. *)
Definition io_post {A : Type} (u : upstream) (m : io A) (P : A -> Prop) : Prop :=
  forall log,
    match fst (m u log) with
    | Returned a => P a
    | Raised e => is_Exception e
    end.

(** A loop body that only appends to [result] *)
Definition appends {A : Type} (body : nat -> A -> string -> outcome string) : Prop :=
  forall i x r, body i x r = (b <- body i x "" ;; Returned (r ++ b)).

(** ** Lines of the reports *)

(** The first three lines of an entry of the health-statistics report *)
Definition indicator_lines (index : nat) (s t v c n : pyval) : string :=
  (str_of_nat index ++ ". **" ++ py_str s ++ "** (" ++ py_str t ++ ")" ++ nl)
  ++ ("   Value: " ++ py_str v ++ " " ++ py_str (py_or c (PStr "")) ++ nl)
  ++ ("   Numeric Value: " ++ py_str n ++ nl).

Definition range_line (low high : pyval) : string :=
  "   Range: " ++ py_str low ++ " - " ++ py_str high ++ nl.

Definition date_line (d : pyval) : string := "   Date: " ++ py_str d ++ nl ++ nl.

(** The five name lines of an entry of the drug-search report, for the
    [openfda] map [o] *)
Definition name_lines (index : nat) (o : list (string * pyval)) : string :=
  (str_of_nat index ++ ". **" ++ shown o "brand_name" "Unknown Brand" ++ "**" ++ nl)
  ++ ("   Generic Name: " ++ shown o "generic_name" "Not specified" ++ nl)
  ++ ("   Manufacturer: " ++ shown o "manufacturer_name" "Not specified" ++ nl)
  ++ ("   Route: " ++ shown o "route" "Not specified" ++ nl)
  ++ ("   Dosage Form: " ++ shown o "dosage_form" "Not specified" ++ nl).

(** The purpose line, for a record whose purpose is missing or a list
    that starts with a string *)
Definition purpose_line (drug : list (string * pyval)) : string :=
  match lookup "purpose" drug with
  | Some (PList (PStr s :: _)) =>
      "   Purpose: " ++ str_firstn 200 s
      ++ (if (200 <? String.length s)%nat then "..." else "") ++ nl
  | _ => ""
  end.

Definition purpose_missing_or_text (drug : list (string * pyval)) : Prop :=
  lookup "purpose" drug = None
  \/ exists s rest, lookup "purpose" drug = Some (PList (PStr s :: rest)).

(** A block whose title is longer than five characters *)
Definition has_long_title (e : Soup.element) : bool :=
  (5 <? String.length (block_title e))%nat.

End Claims.


(* ================================================================== *)
(** * The vocabulary of the further properties *)
(* ================================================================== *)

Module Extra.
Import Py Http MedicalMcp Claims.

(** ** Requests *)

(** The request of [get_drug_by_ndc] *)
Definition ndc_request (ndc : string) : request :=
  Request (FDA_API_BASE ++ "/drug/label.json")
          [("search", "openfda.product_ndc:" ++ ndc); ("limit", "1")]
          api_headers.

(** The request of [search_rxnorm_drugs] *)
Definition rxnorm_request (query : string) : request :=
  Request (RXNAV_API_BASE ++ "/drugs.json") [("name", query)] api_headers.

(** The request [r] fails with [e]: it raises [e], or it is answered with a
    body on which [res.json()] raises [e]. *)
Definition fetch_fails (u : upstream) (r : request) (e : exn) : Prop :=
  u r = Raised e
  \/ exists res, u r = Returned res /\ resp_json res = Raised e.

(** The request [r] is answered with the JSON object [j]. *)
Definition answers (u : upstream) (r : request) (j : list (string * pyval)) : Prop :=
  exists res, u r = Returned res /\ resp_json res = Returned (PDict j).

(** ** Texts *)

(** The text [s] cut after [n] characters, with an ellipsis if something
    was cut *)
Definition clip (n : nat) (s : string) : string :=
  if (n <? String.length s)%nat then str_firstn n s ++ "..." else s.

(** The blocks that [f] makes of the items of [xs], numbered from [i] *)
Fixpoint numbered_blocks {A : Type} (f : nat -> A -> string) (i : nat) (xs : list A)
  : string :=
  match xs with
  | [] => ""
  | x :: xs' => f i x ++ numbered_blocks f (S i) xs'
  end.

(** ** Records *)

(** [bad] is not a JSON object with a key [openfda]. *)
Definition lacks_openfda (bad : pyval) : Prop :=
  match bad with
  | PDict d => lookup "openfda" d = None
  | _ => True
  end.

(** The key [key] of [d] is missing or false as a Python value, or it holds
    a list of strings that is not empty. *)
Definition absent_or_texts (d : list (string * pyval)) (key : string) : Prop :=
  truthy (field d key) = false
  \/ exists w ws, lookup key d = Some (PList (map PStr (w :: ws))).

(** The first block of the drug-details report *)
Definition basic_information (ndc : string) (o : list (string * pyval)) (t : pyval)
  : string :=
  ("**Drug Details for NDC: " ++ ndc ++ "**" ++ nl ++ nl)
  ++ ("**Basic Information:**" ++ nl)
  ++ ("- Brand Name: " ++ shown o "brand_name" "Not specified" ++ nl)
  ++ ("- Generic Name: " ++ shown o "generic_name" "Not specified" ++ nl)
  ++ ("- Manufacturer: " ++ shown o "manufacturer_name" "Not specified" ++ nl)
  ++ ("- Route: " ++ shown o "route" "Not specified" ++ nl)
  ++ ("- Dosage Form: " ++ shown o "dosage_form" "Not specified" ++ nl)
  ++ ("- Last Updated: " ++ py_str t ++ nl ++ nl).

Definition numbered_line (i : nat) (x : pyval) : string :=
  str_of_nat i ++ ". " ++ py_str x ++ nl.

Definition numbered_clipped_line (i : nat) (x : pyval) : string :=
  str_of_nat i ++ ". " ++ clip 300 (py_str x) ++ nl.

(** A section of the drug-details report: nothing, or the heading, the
    numbered lines and an empty line *)
Definition section_text (d : list (string * pyval)) (key heading : string)
    (f : nat -> pyval -> string) : string :=
  if truthy (field d key) then
    match field d key with
    | PList items => heading ++ nl ++ numbered_blocks f 1 items ++ nl
    | _ => ""
    end
  else "".

(** ** Samples *)

(** A drug record with a generic name, one warning and an empty list of
    purposes *)
Definition warned_drug : list (string * pyval) :=
  [("openfda", PDict [("generic_name", PList [PStr "ibuprofen"])]);
   ("purpose", PList []);
   ("warnings", PList [PStr "Stomach bleeding warning"]);
   ("effective_time", PStr "20200101")].

(** A drug-label source that answers with that record and a number *)
Definition two_results : upstream :=
  fun _ => Returned (json_response
                       (PDict [("results", PList [PDict warned_drug; PInt 7])])).

(** ** The nomenclature report *)

(** The first four lines of an entry of the nomenclature report *)
Definition concept_lines (index : nat) (name rxcui tty language : pyval) : string :=
  (str_of_nat index ++ ". **" ++ py_str name ++ "**" ++ nl)
  ++ ("   RxCUI: " ++ py_str rxcui ++ nl)
  ++ ("   Term Type: " ++ py_str tty ++ nl)
  ++ ("   Language: " ++ py_str language ++ nl).

(** The synonyms line for the texts [shown] out of [total] *)
Definition synonyms_line (shown : list string) (total : nat) : string :=
  "   Synonyms: " ++ join ", " shown ++ (if (3 <? total)%nat then "..." else "") ++ nl.

Definition no_rxnorm_message (query : string) : string :=
  "No drugs found in RxNorm database for '" ++ query ++ "'. Try a different search term.".

(** A nomenclature source whose first concept group is empty and whose
    second group holds a concept *)
Definition two_groups : upstream :=
  fun _ => Returned (json_response
    (PDict [("drugGroup", PDict [("conceptGroup",
       PList [PDict [("tty", PStr "BPCK")];
              PDict [("tty", PStr "SBD");
                     ("concept", PList [PDict [("name", PStr "aspirin 81 MG")]])]])])])).

(** ** The literature search *)

(** The atoms of a pattern that stand inside its group; [ing] says whether
    the pattern starts inside the group. *)
Fixpoint group_atoms (p : Re.pattern) (ing : bool) : list Re.atom :=
  match p with
  | [] => []
  | Re.GroupOpen :: p' => group_atoms p' true
  | Re.GroupClose :: p' => group_atoms p' false
  | Re.Eol :: p' => group_atoms p' ing
  | Re.One a :: p' => ((if ing then [a] else []) ++ group_atoms p' ing)%list
  | Re.Star a :: p' => ((if ing then [a] else []) ++ group_atoms p' ing)%list
  end.

(** The number of single characters that a pattern asks for inside its
    group *)
Fixpoint group_ones (p : Re.pattern) (ing : bool) : nat :=
  match p with
  | [] => O
  | Re.GroupOpen :: p' => group_ones p' true
  | Re.GroupClose :: p' => group_ones p' false
  | Re.Eol :: p' => group_ones p' ing
  | Re.One _ :: p' => ((if ing then 1 else 0) + group_ones p' ing)%nat
  | Re.Star _ :: p' => group_ones p' ing
  end.

(** An entry of the literature report, for a PMID and a title *)
Definition literature_block (i : nat) (m : string * string) : string :=
  (str_of_nat i ++ ". **" ++ snd m ++ "**" ++ nl)
  ++ ("   PMID: " ++ fst m ++ nl)
  ++ ("   Journal: Journal information not available" ++ nl)
  ++ ("   Publication Date: Date not available" ++ nl)
  ++ nl.

(** ** The academic search *)

Definition no_academic_message (query : string) : string :=
  "No academic articles found for '" ++ query ++ "'. This could be due to:" ++ nl
  ++ "- No results matching your query" ++ nl
  ++ "- Google Scholar rate limiting" ++ nl
  ++ "- Network connectivity issues" ++ nl ++ nl
  ++ "Try refining your search terms or try again later.".

(** A line of an entry of the academic report, or nothing when the value
    is false as a Python value *)
Definition optional_text (label : string) (v : pyval) : string :=
  if truthy v then "   " ++ label ++ ": " ++ py_str v ++ nl else "".

(** An entry of the academic report, for a candidate block *)
Definition scholar_block (i : nat) (e : Soup.element) : string :=
  let authors := text_of (authors_element_of e) in
  let abstract := text_of (abstract_element_of e) in
  (str_of_nat i ++ ". **" ++ block_title e ++ "**" ++ nl)
  ++ optional_text "Authors" (PStr authors)
  ++ optional_text "Journal" (PStr (derive_journal authors))
  ++ optional_text "Year" (PStr (derive_year authors (block_title e) abstract))
  ++ optional_text "Citations" (PStr (text_of (citations_element_of e)))
  ++ optional_text "URL" (block_url e)
  ++ (if abstract =? "" then "" else "   Abstract: " ++ clip 300 abstract ++ nl)
  ++ nl.

(** A result page on which a block of class gs_ri lies inside a block of
    class gs_r *)
Definition nested_page : list Soup.node :=
  [Soup.Tag "div" [("class", Soup.AttrList ["gs_r"; "gs_or"])]
     [Soup.Tag "div" [("class", Soup.AttrList ["gs_ri"])]
        [Soup.Tag "h3" [("class", Soup.AttrList ["gs_rt"])]
           [Soup.Tag "a" [("href", Soup.AttrStr "https://example.org/a")]
              [Soup.NavigableString "Aspirin in primary prevention"]];
         Soup.Tag "div" [("class", Soup.AttrList ["gs_a"])]
           [Soup.NavigableString "J Smith - Nature, 2020"]]]].

Definition nested_outer : Soup.element :=
  match Soup.descendants (Soup.BeautifulSoup nested_page) with
  | outer :: _ => outer
  | [] => Soup.BeautifulSoup []
  end.

Definition nested_inner : Soup.element :=
  match Soup.descendants (Soup.BeautifulSoup nested_page) with
  | _ :: inner :: _ => inner
  | _ => Soup.BeautifulSoup []
  end.

Definition nested_source : upstream :=
  fun _ => Returned (Response "" (raise JSONDecodeError "Expecting value") nested_page).

(** A result page without any block *)
Definition blocked_source : upstream :=
  fun _ => Returned (Response "" (raise JSONDecodeError "Expecting value")
                       [Soup.Tag "div" [("id", Soup.AttrStr "gs_captcha_f")]
                          [Soup.NavigableString "Please show you are not a robot"]]).

(** ** Whole reports *)

(** A drug record that the drug search can print: an object with an
    [openfda] map and a date, each name field missing or listing a name,
    the purpose missing or a list that starts with a text *)
Definition printable_drug (x : pyval) : Prop :=
  exists d o t,
    x = PDict d /\ lookup "openfda" d = Some (PDict o)
    /\ lookup "effective_time" d = Some t
    /\ (forall k, In k ["brand_name"; "generic_name"; "manufacturer_name"; "route";
                        "dosage_form"] -> listed_or_missing o k)
    /\ purpose_missing_or_text d.

(** The entry of the drug-search report for such a record *)
Definition drug_block (i : nat) (x : pyval) : string :=
  match x with
  | PDict d =>
      match lookup "openfda" d, lookup "effective_time" d with
      | Some (PDict o), Some t =>
          name_lines i o ++ purpose_line d
          ++ "   Last Updated: " ++ py_str t ++ nl ++ nl
      | _, _ => ""
      end
  | _ => ""
  end.

(** A health indicator that the statistics tool can print: an object with
    the six fields an entry reads by subscript *)
Definition printable_indicator (x : pyval) : Prop :=
  exists d s t v c n dt,
    x = PDict d /\ lookup "SpatialDim" d = Some s /\ lookup "TimeDim" d = Some t
    /\ lookup "Value" d = Some v /\ lookup "Comments" d = Some c
    /\ lookup "NumericValue" d = Some n /\ lookup "Date" d = Some dt.

(** The entry of the health-statistics report for such a record *)
Definition indicator_block (i : nat) (x : pyval) : string :=
  match x with
  | PDict d =>
      indicator_lines i (field d "SpatialDim") (field d "TimeDim") (field d "Value")
        (field d "Comments") (field d "NumericValue")
      ++ (if truthy (field d "Low") && truthy (field d "High")
          then range_line (field d "Low") (field d "High") else "")
      ++ date_line (field d "Date")
  | _ => ""
  end.

End Extra.
(* ================================================================== *)
(** * Facts about texts *)
(* ================================================================== *)

Module StrFacts.
Import Py.

Lemma app_assoc (a b c : string) : (a ++ b) ++ c = a ++ (b ++ c).
Proof. induction a as [|x a IH]; simpl; [reflexivity | now rewrite IH]. Qed.

Lemma app_nil_r (a : string) : a ++ "" = a.
Proof. induction a as [|x a IH]; simpl; [reflexivity | now rewrite IH]. Qed.

Lemma length_app (a b : string) :
  String.length (a ++ b) = (String.length a + String.length b)%nat.
Proof. induction a as [|x a IH]; simpl; [reflexivity | now rewrite IH]. Qed.

Lemma length_zero (a : string) : String.length a = 0%nat -> a = "".
Proof. destruct a; simpl; [reflexivity | discriminate]. Qed.

Lemma eqb_empty_false (c : ascii) (s : string) : (String c s =? "") = false.
Proof. reflexivity. Qed.

Lemma contains_char_app (c : ascii) (a b : string) :
  str_contains_char c (a ++ b) = str_contains_char c a || str_contains_char c b.
Proof.
  induction a as [|x a IH]; simpl; [reflexivity |].
  rewrite IH. now rewrite orb_assoc.
Qed.

End StrFacts.

(* ================================================================== *)
(** * Facts about matching *)
(* ================================================================== *)

Module ReFacts.
Import Py Re StrFacts.

Lemma match_open (p : pattern) (ing : bool) (s : string) :
  match_here (GroupOpen :: p) ing s = match_here p true s.
Proof. reflexivity. Qed.

Lemma match_close (p : pattern) (ing : bool) (s : string) :
  match_here (GroupClose :: p) ing s = match_here p false s.
Proof. reflexivity. Qed.

Lemma match_one (a : atom) (p : pattern) (ing : bool) (c : ascii) (s : string) :
  match_here (One a :: p) ing (String c s) =
  if atom_ok a c then option_map (capture ing c) (match_here p ing s) else None.
Proof. reflexivity. Qed.

Lemma match_one_empty (a : atom) (p : pattern) (ing : bool) :
  match_here (One a :: p) ing "" = None.
Proof. reflexivity. Qed.

Lemma match_star_empty (a : atom) (p : pattern) (ing : bool) :
  match_here (Star a :: p) ing "" = match_here p ing "".
Proof. reflexivity. Qed.

(** The greedy star: take the character and go on, and only if that fails
    go on without it. *)
Lemma match_star (a : atom) (p : pattern) (ing : bool) (c : ascii) (s : string) :
  match_here (Star a :: p) ing (String c s) =
  if atom_ok a c then
    match match_here (Star a :: p) ing s with
    | Some r => Some (capture ing c r)
    | None => match_here p ing (String c s)
    end
  else match_here p ing (String c s).
Proof. reflexivity. Qed.

(** [re.search] returns the leftmost match. *)
Lemma search_some (p : pattern) (s g : string) :
  search p s = Some g ->
  exists pre suf rest,
    s = pre ++ suf /\ match_here p false suf = Some (g, rest) /\
    forall pre' suf',
      s = pre' ++ suf' -> (String.length pre' < String.length pre)%nat ->
      match_here p false suf' = None.
Proof.
  revert g. induction s as [|c s IH]; intros g H; simpl in H.
  - destruct (match_here p false "") as [[g' rest]|] eqn:E; [|discriminate].
    injection H as ->. exists "", "", rest. repeat split; auto.
    intros pre' suf' _ L. simpl in L. lia.
  - destruct (match_here p false (String c s)) as [[g' rest]|] eqn:E.
    + injection H as ->. exists "", (String c s), rest. repeat split; auto.
      intros pre' suf' _ L. simpl in L. lia.
    + destruct (IH g H) as (pre & suf & rest & Hs & Hm & Hmin).
      exists (String c pre), suf, rest. repeat split.
      * simpl. now rewrite Hs.
      * exact Hm.
      * intros pre' suf' Hd L. destruct pre' as [|c' pre'].
        -- simpl in Hd. now rewrite <- Hd.
        -- simpl in Hd. injection Hd as _ Hd. apply (Hmin pre' suf' Hd).
           simpl in L. lia.
Qed.

Lemma search_none (p : pattern) (s : string) :
  search p s = None ->
  forall pre suf, s = pre ++ suf -> match_here p false suf = None.
Proof.
  induction s as [|c s IH]; intros H pre suf Hd; simpl in H.
  - destruct (match_here p false "") as [[g' rest]|] eqn:E; [discriminate|].
    destruct pre; simpl in Hd; [now rewrite <- Hd | discriminate].
  - destruct (match_here p false (String c s)) as [[g' rest]|] eqn:E; [discriminate|].
    destruct pre as [|c' pre]; simpl in Hd.
    + now rewrite <- Hd.
    + injection Hd as _ Hd. exact (IH H pre suf Hd).
Qed.

End ReFacts.

(* ================================================================== *)
(** * The year and journal patterns *)
(* ================================================================== *)

Module PatternFacts.
Import Py Re StrFacts ReFacts MedicalMcp Claims.

(** [(\d{4})] matches at the start of [s] exactly when [s] starts with four
    digits, and the group is those four digits. *)
Lemma year_match_some (s g rest : string) :
  match_here year_re false s = Some (g, rest) -> four_digits g /\ s = g ++ rest.
Proof.
  unfold year_re. simpl app. rewrite match_open.
  destruct s as [|c1 [|c2 [|c3 [|c4 s]]]];
    repeat (rewrite ?match_one, ?match_one_empty; simpl atom_ok;
            try match goal with |- context [is_digit ?c] =>
                  destruct (is_digit c) eqn:? end; simpl option_map);
    try discriminate.
  intros H. injection H as <- <-.
  split; [split; [reflexivity | simpl; now rewrite Heqb, Heqb0, Heqb1, Heqb2] | reflexivity].
Qed.

Lemma year_match_none (s : string) :
  match_here year_re false s = None ->
  forall g rest, s = g ++ rest -> ~ four_digits g.
Proof.
  unfold year_re. simpl app. rewrite match_open.
  intros H g rest Hd [Hl Hdig].
  destruct g as [|d1 [|d2 [|d3 [|d4 [|d5 g]]]]]; simpl in Hl; try discriminate.
  subst s. simpl in Hdig.
  apply andb_prop in Hdig as [D1 Hdig]. apply andb_prop in Hdig as [D2 Hdig].
  apply andb_prop in Hdig as [D3 Hdig]. apply andb_prop in Hdig as [D4 _].
  simpl in H. rewrite D1, D2, D3, D4 in H. simpl in H. discriminate.
Qed.

Lemma search_year_some (s y : string) :
  search year_re s = Some y -> first_four_digits s y.
Proof.
  intros H. destruct (search_some _ _ _ H) as (pre & suf & rest & Hs & Hm & Hmin).
  destruct (year_match_some _ _ _ Hm) as [Hy Hsuf].
  split; [exact Hy|]. exists pre, rest. split; [now rewrite Hs, Hsuf|].
  intros pre' y' post' Hd Hy'.
  destruct (Nat.le_gt_cases (String.length pre) (String.length pre')) as [L|L]; [exact L|].
  exfalso. exact (year_match_none _ (Hmin pre' (y' ++ post') Hd L) y' post' eq_refl Hy').
Qed.

Lemma search_year_none (s : string) :
  search year_re s = None -> no_four_digits s.
Proof.
  intros H pre y post Hd.
  exact (year_match_none _ (search_none _ _ H pre (y ++ post) Hd) y post eq_refl).
Qed.

Lemma four_digits_not_empty (y : string) : four_digits y -> (y =? "") = false.
Proof. intros [L _]. destruct y; [discriminate | reflexivity]. Qed.

(** ** The tail patterns [- ([^-]+)$] and [, ([^,]+)$] *)

Lemma at_eol_long (c d : ascii) (s : string) : at_eol (String c (String d s)) = false.
Proof. reflexivity. Qed.

Lemma eqb_comm (c d : ascii) : Ascii.eqb c d = Ascii.eqb d c.
Proof. apply Ascii.eqb_sym. Qed.

(** [[^c]*] followed by the end of the group and [$]: the rest of the text,
    if [c] does not occur in it. *)
Lemma star_to_eol (c : ascii) (s : string) :
  code c <> 10%N ->
  match_here [Star (NotChar c); GroupClose; Eol] true s =
  if str_contains_char c s then None else Some (s, "").
Proof.
  intros Hc. induction s as [|d s IH].
  - reflexivity.
  - rewrite match_star. simpl atom_ok. simpl str_contains_char.
    rewrite (eqb_comm c d). destruct (Ascii.eqb d c) eqn:E; simpl negb; simpl orb.
    + apply Ascii.eqb_eq in E. subst d. rewrite match_close. simpl.
      destruct s; [|reflexivity].
      destruct (code c =? 10)%N eqn:E10; [apply N.eqb_eq in E10; contradiction | reflexivity].
    + rewrite IH. destruct (str_contains_char c s) eqn:Hs.
      * rewrite match_close. destruct s as [|e s]; [discriminate|]. reflexivity.
      * reflexivity.
Qed.

Lemma tail_match_some (c : ascii) (s g rest : string) :
  code c <> 10%N ->
  match_here (tail_pattern c) false s = Some (g, rest) ->
  s = String c (String " " g) /\ g <> "" /\ str_contains_char c g = false /\ rest = "".
Proof.
  intros Hc. unfold tail_pattern. intros H.
  destruct s as [|c1 s]; [discriminate|].
  rewrite match_one in H. simpl atom_ok in H.
  destruct (Ascii.eqb c1 c) eqn:E1; [|discriminate].
  destruct s as [|c2 s]; [discriminate|].
  rewrite match_one in H. simpl atom_ok in H.
  destruct (Ascii.eqb c2 " ") eqn:E2; [|discriminate].
  rewrite match_open in H.
  destruct s as [|c3 s]; [discriminate|].
  rewrite match_one in H. simpl atom_ok in H.
  destruct (Ascii.eqb c3 c) eqn:E3; [discriminate|].
  simpl negb in H. cbv iota in H.
  rewrite (star_to_eol c s Hc) in H.
  destruct (str_contains_char c s) eqn:Hs; [discriminate|].
  simpl in H. injection H as <- <-.
  apply Ascii.eqb_eq in E1, E2. subst c1 c2.
  repeat split; [discriminate|].
  simpl. now rewrite (eqb_comm c c3), E3, Hs.
Qed.

Lemma tail_match_complete (c : ascii) (g : string) :
  code c <> 10%N -> g <> "" -> str_contains_char c g = false ->
  match_here (tail_pattern c) false (String c (String " " g)) = Some (g, "").
Proof.
  intros Hc Hg Hfree. unfold tail_pattern.
  rewrite match_one. simpl atom_ok. rewrite Ascii.eqb_refl. cbv iota.
  rewrite match_one. simpl atom_ok. cbv iota.
  rewrite match_open. destruct g as [|d g]; [contradiction|].
  simpl in Hfree. apply orb_false_elim in Hfree as [Hd Hfree].
  rewrite match_one. simpl atom_ok. rewrite (eqb_comm d c), Hd. simpl negb. cbv iota.
  rewrite (star_to_eol c g Hc), Hfree. reflexivity.
Qed.

Lemma search_tail_some (c : ascii) (s g : string) :
  code c <> 10%N ->
  search (tail_pattern c) s = Some g ->
  tail_after (String c " ") c s g.
Proof.
  intros Hc H. destruct (search_some _ _ _ H) as (pre & suf & rest & Hs & Hm & _).
  destruct (tail_match_some c _ _ _ Hc Hm) as (Hsuf & Hne & Hfree & _).
  exists pre. repeat split; auto. now rewrite Hs, Hsuf.
Qed.

Lemma search_tail_none (c : ascii) (s : string) :
  code c <> 10%N ->
  search (tail_pattern c) s = None ->
  forall g, ~ tail_after (String c " ") c s g.
Proof.
  intros Hc H g (pre & Hs & Hne & Hfree).
  pose proof (search_none _ _ H pre (String c (String " " g)) Hs) as Hn.
  rewrite (tail_match_complete c g Hc Hne Hfree) in Hn. discriminate.
Qed.


(** ** The pattern [in ([^,]+)] *)

(** [[^c]*] followed by the end of the group: the longest prefix of the
    text in which [c] does not occur. *)
Lemma star_span (c : ascii) (s : string) :
  exists g rest,
    match_here [Star (NotChar c); GroupClose] true s = Some (g, rest) /\
    s = g ++ rest /\ str_contains_char c g = false /\
    (rest = "" \/ exists r, rest = String c r).
Proof.
  induction s as [|d s (g & rest & Hm & Hs & Hfree & Hrest)].
  - exists "", "". repeat split; auto.
  - rewrite match_star. simpl atom_ok.
    destruct (Ascii.eqb d c) eqn:E; simpl negb; cbv iota.
    + apply Ascii.eqb_eq in E. subst d.
      exists "", (String c s). repeat split; eauto.
    + rewrite Hm. exists (String d g), rest. repeat split; auto.
      * simpl. now rewrite Hs.
      * simpl. now rewrite (eqb_comm c d), E, Hfree.
Qed.

Lemma in_match_some (s g rest : string) :
  match_here in_re false s = Some (g, rest) ->
  s = "in " ++ g ++ rest /\ g <> "" /\ str_contains_char "," g = false /\
  (rest = "" \/ exists r, rest = String "," r).
Proof.
  unfold in_re. simpl app. intros H.
  destruct s as [|c1 s]; [discriminate|].
  rewrite match_one in H. simpl atom_ok in H.
  destruct (Ascii.eqb c1 "i") eqn:E1; [|discriminate].
  destruct s as [|c2 s]; [discriminate|].
  rewrite match_one in H. simpl atom_ok in H.
  destruct (Ascii.eqb c2 "n") eqn:E2; [|discriminate].
  destruct s as [|c3 s]; [discriminate|].
  rewrite match_one in H. simpl atom_ok in H.
  destruct (Ascii.eqb c3 " ") eqn:E3; [|discriminate].
  rewrite match_open in H.
  destruct s as [|c4 s]; [discriminate|].
  rewrite match_one in H. simpl atom_ok in H.
  destruct (Ascii.eqb c4 ",") eqn:E4; [discriminate|].
  simpl negb in H. cbv iota in H.
  destruct (star_span "," s) as (g' & rest' & Hm & Hs & Hfree & Hrest).
  rewrite Hm in H. simpl in H. injection H as <- <-.
  apply Ascii.eqb_eq in E1, E2, E3. subst c1 c2 c3.
  repeat split.
  - simpl. now rewrite Hs.
  - discriminate.
  - change (Ascii.eqb "," c4 || str_contains_char "," g' = false).
    now rewrite (eqb_comm "," c4), E4, Hfree.
  - exact Hrest.
Qed.

Lemma in_match_none (s : string) :
  match_here in_re false s = None ->
  forall c r, s = "in " ++ String c r -> c = ","%char.
Proof.
  unfold in_re. simpl app. intros H c r ->.
  simpl append in H.
  rewrite match_one in H. simpl atom_ok in H. cbv iota in H.
  rewrite match_one in H. simpl atom_ok in H. cbv iota in H.
  rewrite match_one in H. simpl atom_ok in H. cbv iota in H.
  rewrite match_open, match_one in H. simpl atom_ok in H.
  destruct (Ascii.eqb c ",") eqn:E; [now apply Ascii.eqb_eq in E|].
  simpl negb in H. cbv iota in H.
  destruct (star_span "," r) as (g' & rest' & Hm & _).
  rewrite Hm in H. discriminate.
Qed.

Lemma search_in_some (s g : string) :
  search in_re s = Some g -> phrase_after_in s g.
Proof.
  intros H. destruct (search_some _ _ _ H) as (pre & suf & rest & Hs & Hm & Hmin).
  destruct (in_match_some _ _ _ Hm) as (Hsuf & Hne & Hfree & Hrest).
  exists pre, rest. repeat split; auto.
  - now rewrite Hs, Hsuf.
  - intros pre' c r Hd Hc.
    destruct (Nat.le_gt_cases (String.length pre) (String.length pre')) as [L|L]; [exact L|].
    exfalso. apply Hc.
    exact (in_match_none _ (Hmin pre' ("in " ++ String c r) Hd L) c r eq_refl).
Qed.

Lemma search_in_none (s : string) :
  search in_re s = None ->
  forall pre c r, s = pre ++ "in " ++ String c r -> c = ","%char.
Proof.
  intros H pre c r Hd.
  exact (in_match_none _ (search_none _ _ H pre ("in " ++ String c r) Hd) c r eq_refl).
Qed.

Lemma hyphen_not_newline : code "-" <> 10%N.
Proof. discriminate. Qed.

Lemma comma_not_newline : code "," <> 10%N.
Proof. discriminate. Qed.

Lemma tail_after_not_empty (sep : string) (c : ascii) (s g : string) :
  tail_after sep c s g -> (g =? "") = false.
Proof. intros (_ & _ & Hne & _). destruct g; [contradiction | reflexivity]. Qed.

Lemma phrase_not_empty (s g : string) : phrase_after_in s g -> (g =? "") = false.
Proof. intros (_ & _ & _ & Hne & _). destruct g; [contradiction | reflexivity]. Qed.

End PatternFacts.

(* ================================================================== *)
(** * What the runtime operations raise *)
(* ================================================================== *)

Module OutcomeFacts.
Import Py Http MedicalMcp Claims.

Lemma only_bind {A B : Type} (m : outcome A) (k : A -> outcome B) :
  raises_only_Exception m -> (forall a, raises_only_Exception (k a)) ->
  raises_only_Exception (bind m k).
Proof. destruct m; simpl; auto. Qed.

Lemma only_getitem (v : pyval) (k : string) : raises_only_Exception (getitem v k).
Proof. destruct v; simpl; try exact eq_refl. destruct (lookup k d); simpl; auto. reflexivity. Qed.

Lemma only_getitem0 (v : pyval) : raises_only_Exception (getitem0 v).
Proof. destruct v as [| | | | s | l | d]; simpl; try exact eq_refl;
       [destruct s | destruct l]; simpl; auto; reflexivity. Qed.

Lemma only_slice_to (v : pyval) (n : Z) : raises_only_Exception (slice_to v n).
Proof. destruct v; simpl; auto; reflexivity. Qed.

Lemma only_get (v : pyval) (k : string) (d : pyval) : raises_only_Exception (get v k d).
Proof. destruct v; simpl; try exact eq_refl. destruct (lookup k d0); simpl; auto. Qed.

Lemma only_len (v : pyval) : raises_only_Exception (len v).
Proof. destruct v; simpl; auto; reflexivity. Qed.

Lemma only_iter (v : pyval) : raises_only_Exception (iter v).
Proof. destruct v; simpl; auto; reflexivity. Qed.

Lemma only_join_items (i : nat) (l : list pyval) : raises_only_Exception (join_items i l).
Proof.
  revert i. induction l as [|x l IH]; intros i; simpl; auto.
  destruct x; simpl; try exact eq_refl.
  apply only_bind; [apply IH | intros; exact I].
Qed.

Lemma only_py_join (sep : string) (v : pyval) : raises_only_Exception (py_join sep v).
Proof.
  destruct v; simpl; try exact eq_refl; auto.
  apply only_bind; [apply only_join_items | intros; exact I].
Qed.

Lemma only_for {A : Type} (body : nat -> A -> string -> outcome string) :
  (forall i x r, raises_only_Exception (body i x r)) ->
  forall xs i r, raises_only_Exception (for_enumerate body i xs r).
Proof.
  intros Hb xs. induction xs as [|x xs IH]; intros i r; simpl; auto.
  apply only_bind; [apply Hb | intros; apply IH].
Qed.

Create HintDb only.

#[local] Hint Resolve only_getitem only_getitem0 only_slice_to only_get only_len
  only_iter only_py_join : only.

(** One step through a body written with [bind], [if] and [let]. *)
Ltac only_step :=
  match goal with
  | |- raises_only_Exception (Returned _) => exact I
  | |- raises_only_Exception (bind _ _) => apply only_bind; [| intros]
  | |- raises_only_Exception (if ?b then _ else _) => destruct b
  | |- raises_only_Exception (for_enumerate _ _ _ _) => apply only_for; intros
  | |- raises_only_Exception _ => solve [auto with only]
  end.

Ltac only_all := cbv zeta; repeat only_step.

Lemma only_present (d : pyval) (k : string) : raises_only_Exception (present d k).
Proof. unfold present. only_all. Qed.

Lemma only_clipped (e : outcome pyval) (n : nat) :
  raises_only_Exception e -> raises_only_Exception (clipped e n).
Proof. intros He. unfold clipped. only_all; exact He. Qed.

Lemma only_openfda_field (d : pyval) (k p : string) :
  raises_only_Exception (openfda_field d k p).
Proof. unfold openfda_field. only_all. Qed.

#[local] Hint Resolve only_present only_openfda_field : only.

Ltac only_body :=
  cbv zeta;
  repeat first [ apply only_clipped | only_step ].

Lemma only_drug_entry i x r : raises_only_Exception (drug_entry i x r).
Proof.
  unfold drug_entry. only_body.
Qed.

Lemma only_numbered i x r : raises_only_Exception (numbered i x r).
Proof. exact I. Qed.

Lemma only_numbered_clipped i x r : raises_only_Exception (numbered_clipped i x r).
Proof. unfold numbered_clipped. only_body. Qed.

Lemma only_details_section d k h line r :
  (forall i x r, raises_only_Exception (line i x r)) ->
  raises_only_Exception (details_section d k h line r).
Proof. intros Hl. unfold details_section. only_body. Qed.

Lemma only_indicator_entry i x r : raises_only_Exception (indicator_entry i x r).
Proof. unfold indicator_entry. only_body. Qed.

Lemma only_article_entry i x r : raises_only_Exception (article_entry i x r).
Proof. unfold article_entry. only_body. Qed.

Lemma only_concept_entry i x r : raises_only_Exception (concept_entry i x r).
Proof. unfold concept_entry. only_body. Qed.

Lemma only_optional_line a k l r : raises_only_Exception (optional_line a k l r).
Proof. unfold optional_line. only_all. Qed.

#[local] Hint Resolve only_optional_line : only.

Lemma only_scholar_entry i x r : raises_only_Exception (scholar_entry i x r).
Proof.
  unfold scholar_entry. only_body.
Qed.

(** ** Computations that issue requests *)

Lemma post_ret {A : Type} (u : upstream) (a : A) (P : A -> Prop) :
  P a -> io_post u (ret a) P.
Proof. intros H log. exact H. Qed.

Lemma post_lift {A : Type} (u : upstream) (o : outcome A) :
  raises_only_Exception o -> io_post u (lift o) (fun _ => True).
Proof. intros H log. simpl. destruct o; auto. Qed.

Lemma post_bind {A B : Type} (u : upstream) (m : io A) (k : A -> io B)
    (P : A -> Prop) (Q : B -> Prop) :
  io_post u m P -> (forall a, P a -> io_post u (k a) Q) ->
  io_post u (iobind m k) Q.
Proof.
  intros Hm Hk log. unfold iobind. specialize (Hm log).
  destruct (m u log) as [[a|e] log']; simpl in *.
  - exact (Hk a Hm log').
  - exact Hm.
Qed.

Lemma post_client_get (u : upstream) (r : request) :
  fails_with_Exception u ->
  io_post u (client_get r) (fun res => raises_only_Exception (resp_json res)).
Proof.
  intros Hu log. unfold client_get. simpl. specialize (Hu r).
  destruct (u r) as [res|e]; [|exact Hu].
  unfold raises_only_Exception. destruct (resp_json res); auto.
Qed.

(** What [try ... except Exception] leaves of a body that raises nothing
    but instances of [Exception]. *)
Lemma try_except_returns (u : upstream) (body : io string) (handler : string -> string)
    (log : list request) :
  io_post u body (fun _ => True) ->
  exists s, fst (try_except body handler u log) = Returned s.
Proof.
  intros Hb. unfold try_except. specialize (Hb log).
  destruct (body u log) as [[s|e] log']; simpl in *.
  - now exists s.
  - unfold is_Exception in Hb. rewrite Hb. simpl. now eexists.
Qed.

End OutcomeFacts.

(* ================================================================== *)
(** * The tool boundary *)
(* ================================================================== *)

Module BoundaryFacts.
Import Py Http MedicalMcp Claims OutcomeFacts.

#[local] Hint Resolve only_getitem only_getitem0 only_slice_to only_get only_len
  only_iter only_py_join only_present only_openfda_field only_optional_line
  only_drug_entry only_numbered only_numbered_clipped only_indicator_entry
  only_article_entry only_concept_entry only_scholar_entry : only.

Ltac post_step :=
  match goal with
  | |- io_post _ (iobind (client_get _) _) _ =>
      eapply post_bind; [apply post_client_get; assumption | intros ? ?]
  | |- io_post _ (iobind _ _) _ => eapply post_bind; [| intros ? _]
  | |- io_post _ (lift _) _ => apply post_lift
  | |- io_post _ (ret _) _ => apply post_ret; exact I
  | |- io_post _ (if ?b then _ else _) _ => destruct b
  end.

Ltac only_tool :=
  cbv zeta;
  repeat first [ apply only_clipped | apply only_details_section; intros | only_step ].

Section Upstream.

Variable u : upstream.
Hypothesis u_fails_with_Exception : fails_with_Exception u.

Lemma post_search_drugs query limit :
  io_post u (search_drugs query limit) (fun _ => True).
Proof. unfold search_drugs. repeat post_step. only_tool; assumption. Qed.

Lemma post_get_drug_by_ndc ndc : io_post u (get_drug_by_ndc ndc) (fun _ => True).
Proof. unfold get_drug_by_ndc. repeat post_step. only_tool; assumption. Qed.

Lemma post_get_health_indicators indicator country :
  io_post u (get_health_indicators indicator country) (fun _ => True).
Proof. unfold get_health_indicators. repeat post_step. only_tool; assumption. Qed.

Lemma post_search_rxnorm_drugs query :
  io_post u (search_rxnorm_drugs query) (fun _ => True).
Proof. unfold search_rxnorm_drugs. repeat post_step. only_tool; assumption. Qed.

Lemma post_search_google_scholar query :
  io_post u (search_google_scholar query) (fun _ => True).
Proof.
  unfold search_google_scholar.
  eapply post_bind; [apply (post_ret u tt (fun _ => True) I) | intros _ _].
  repeat post_step.
Qed.

Lemma post_search_pubmed_articles query max_results :
  io_post u (search_pubmed_articles query max_results) (fun _ => True).
Proof.
  unfold search_pubmed_articles.
  eapply post_bind; [apply post_client_get; assumption | intros res Hres].
  eapply post_bind; [apply post_lift | intros id_list _].
  { unfold esearch_idlist. only_tool; assumption. }
  destruct (negb (truthy id_list)); [apply post_ret; exact I|].
  eapply post_bind; [apply post_lift; apply only_py_join | intros ids _].
  repeat post_step.
Qed.

Lemma returns_search_drugs_tool query limit log :
  exists s, fst (search_drugs_tool query limit u log) = Returned s.
Proof.
  apply try_except_returns.
  eapply post_bind; [apply post_search_drugs | intros v _].
  apply post_lift. only_tool.
Qed.

Lemma returns_get_drug_details_tool ndc log :
  exists s, fst (get_drug_details_tool ndc u log) = Returned s.
Proof.
  apply try_except_returns.
  eapply post_bind; [apply post_get_drug_by_ndc | intros v _].
  apply post_lift. only_tool.
Qed.

Lemma returns_get_health_statistics_tool indicator country limit log :
  exists s, fst (get_health_statistics_tool indicator country limit u log) = Returned s.
Proof.
  apply try_except_returns.
  eapply post_bind; [apply post_get_health_indicators | intros v _].
  apply post_lift. only_tool.
Qed.

Lemma returns_search_medical_literature_tool query max_results log :
  exists s, fst (search_medical_literature_tool query max_results u log) = Returned s.
Proof.
  apply try_except_returns.
  eapply post_bind; [apply post_search_pubmed_articles | intros v _].
  apply post_lift. only_tool.
Qed.

Lemma returns_search_drug_nomenclature_tool query log :
  exists s, fst (search_drug_nomenclature_tool query u log) = Returned s.
Proof.
  apply try_except_returns.
  eapply post_bind; [apply post_search_rxnorm_drugs | intros v _].
  apply post_lift. only_tool.
Qed.

Lemma returns_search_google_scholar_tool query log :
  exists s, fst (search_google_scholar_tool query u log) = Returned s.
Proof.
  apply try_except_returns.
  eapply post_bind; [apply post_search_google_scholar | intros v _].
  apply post_lift. only_tool.
Qed.

End Upstream.

End BoundaryFacts.


(* ================================================================== *)
(** * The scraper's loop *)
(* ================================================================== *)

Module ScrapeFacts.
Import Py Http MedicalMcp Claims.

Lemma long_title_not_empty (t : string) :
  negb (t =? "") && (5 <? String.length t)%nat = (5 <? String.length t)%nat.
Proof. destruct t; reflexivity. Qed.

Lemma scrape_block_long (results : list pyval) (e : Soup.element) :
  scrape_block results e =
  if has_long_title e then (results ++ [block_record e])%list else results.
Proof. unfold scrape_block, has_long_title. cbv zeta. now rewrite long_title_not_empty. Qed.

(** The loop appends the record of every block with a long title, in the
    order of the blocks. *)
Lemma fold_scrape (blocks : list Soup.element) (results : list pyval) :
  fold_left scrape_block blocks results =
  (results ++ map block_record (filter has_long_title blocks))%list.
Proof.
  revert results. induction blocks as [|e blocks IH]; intros results; simpl.
  - now rewrite List.app_nil_r.
  - rewrite IH, scrape_block_long. destruct (has_long_title e); simpl.
    + now rewrite <- List.app_assoc.
    + reflexivity.
Qed.

Lemma block_record_title (e : Soup.element) :
  exists d, block_record e = PDict d /\ lookup "title" d = Some (PStr (block_title e)).
Proof. eexists. split; reflexivity. Qed.

End ScrapeFacts.

(* ================================================================== *)
(** * The entries of the reports *)
(* ================================================================== *)

Module FormatFacts.
Import Py Http MedicalMcp Claims StrFacts.

Ltac assoc := repeat rewrite app_assoc; try reflexivity.

Lemma for_appends {A : Type} (body : nat -> A -> string -> outcome string) :
  appends body ->
  forall xs i r,
    for_enumerate body i xs r = (b <- for_enumerate body i xs "" ;; Returned (r ++ b)).
Proof.
  intros Hb xs. induction xs as [|x xs IH]; intros i r; simpl.
  - now rewrite app_nil_r.
  - rewrite (Hb i x r). destruct (body i x "") as [b|e]; simpl; [|reflexivity].
    rewrite (IH (S i) (r ++ b)), (IH (S i) b).
    destruct (for_enumerate body (S i) xs "") as [b'|e]; simpl; [|reflexivity].
    now rewrite app_assoc.
Qed.

Lemma indicator_entry_appends : appends indicator_entry.
Proof.
  intros i ind r. unfold indicator_entry.
  destruct (getitem ind "SpatialDim") as [s|]; simpl; [|reflexivity].
  destruct (getitem ind "TimeDim") as [t|]; simpl; [|reflexivity].
  destruct (getitem ind "Value") as [v|]; simpl; [|reflexivity].
  destruct (getitem ind "Comments") as [c|]; simpl; [|reflexivity].
  destruct (getitem ind "NumericValue") as [n|]; simpl; [|reflexivity].
  destruct (get ind "Low" PNone) as [low|]; simpl; [|reflexivity].
  destruct (truthy low); simpl.
  - destruct (get ind "High" PNone) as [high|]; simpl; [|reflexivity].
    destruct (truthy high); simpl.
    + destruct (getitem ind "Low") as [l|]; simpl; [|reflexivity].
      destruct (getitem ind "High") as [h|]; simpl; [|reflexivity].
      destruct (getitem ind "Date") as [d|]; simpl; [|reflexivity].
      f_equal. assoc.
    + destruct (getitem ind "Date") as [d|]; simpl; [|reflexivity].
      f_equal. assoc.
  - destruct (getitem ind "Date") as [d|]; simpl; [|reflexivity].
    f_equal. assoc.
Qed.

(** An entry of the health-statistics report, for a record that has the
    six fields the entry reads by subscript. *)
Lemma indicator_entry_dict (index : nat) (d : list (string * pyval)) (result : string)
    (s t v c n dt : pyval) :
  lookup "SpatialDim" d = Some s -> lookup "TimeDim" d = Some t ->
  lookup "Value" d = Some v -> lookup "Comments" d = Some c ->
  lookup "NumericValue" d = Some n -> lookup "Date" d = Some dt ->
  indicator_entry index (PDict d) result =
  Returned (result ++ indicator_lines index s t v c n
            ++ (if truthy (field d "Low") && truthy (field d "High")
                then range_line (field d "Low") (field d "High") else "")
            ++ date_line dt).
Proof.
  intros Hs Ht Hv Hc Hn Hd.
  unfold indicator_entry, getitem, get, field, indicator_lines, range_line, date_line.
  rewrite Hs, Ht, Hv, Hc, Hn, Hd. cbn [bind].
  destruct (lookup "Low" d) as [low|]; cbn [bind truthy andb].
  - destruct (truthy low); cbn [bind andb].
    + destruct (lookup "High" d) as [high|]; cbn [bind truthy].
      * destruct (truthy high); cbn [bind]; f_equal; assoc.
      * f_equal. assoc.
    + f_equal. assoc.
  - f_equal. assoc.
Qed.

End FormatFacts.

(* ================================================================== *)
(** * The reports *)
(* ================================================================== *)

Module ReportFacts.
Import Py Http MedicalMcp Claims StrFacts FormatFacts.

Lemma slice_to_limit {A : Type} (limit : Z) (l : list A) :
  (1 <= limit)%Z -> list_slice_to limit l = firstn (Z.to_nat limit) l.
Proof.
  intros H. unfold list_slice_to.
  destruct (0 <=? limit)%Z eqn:E; [reflexivity|]. apply Z.leb_gt in E. lia.
Qed.

(** The report of the health-statistics tool when the loop over the first
    [limit] records comes to its end. *)
Lemma statistics_report (indicator : string) (country : option string) (limit : Z)
    (u : upstream) (log : list request) (res : response) (j : pyval)
    (inds : list pyval) (body : string) :
  u (health_request indicator country) = Returned res ->
  resp_json res = Returned j ->
  get j "value" (PList []) = Returned (PList inds) ->
  inds <> [] ->
  for_enumerate indicator_entry 1 (list_slice_to limit inds) "" = Returned body ->
  get_health_statistics_tool indicator country limit u log
  = (Returned (statistics_header indicator country (length inds) ++ body),
     (log ++ [health_request indicator country])%list).
Proof.
  intros Hu Hj Hv Hne Hbody.
  unfold get_health_statistics_tool, try_except, iobind, get_health_indicators,
    iobind, client_get, lift.
  rewrite Hu, Hj. cbn [bind]. rewrite Hv.
  destruct inds as [|x inds]; [contradiction|].
  cbn [truthy negb len bind slice_to iter].
  rewrite (for_appends _ indicator_entry_appends), Hbody. cbn [bind].
  unfold statistics_header. destruct (given country); do 2 f_equal; assoc.
Qed.

Lemma openfda_field_shown (d o : list (string * pyval)) (k placeholder : string) :
  lookup "openfda" d = Some (PDict o) -> listed_or_missing o k ->
  exists v, openfda_field (PDict d) k placeholder = Returned v
            /\ py_str v = shown o k placeholder.
Proof.
  intros Ho Hk. unfold openfda_field, getitem, get, shown. rewrite Ho. cbn [bind].
  destruct Hk as [Hk | (x & rest & Hk)]; rewrite Hk; cbn [bind getitem0].
  - now exists (PStr placeholder).
  - now exists x.
Qed.

Lemma purpose_part (d : list (string * pyval)) (result : string)
    (k : string -> outcome string) :
  purpose_missing_or_text d ->
  (c <- present (PDict d) "purpose" ;;
   r <- (if c : bool then
           t <- clipped (p <- getitem (PDict d) "purpose" ;; getitem0 p) 200 ;;
           Returned (result ++ "   Purpose: " ++ t ++ nl)
         else Returned result) ;;
   k r)
  = k (result ++ purpose_line d).
Proof.
  intros [H | (s & rest & H)]; unfold present, clipped, get, getitem, purpose_line;
    rewrite H; cbn [bind truthy].
  - now rewrite app_nil_r.
  - cbn [bind getitem0 slice_to len py_str].
    change (str_slice_to (Z.of_nat 200) s) with (str_firstn 200 s).
    f_equal. f_equal. assoc.
Qed.

(** An entry of the drug-search report, for a record with an [openfda]
    map and a date. *)
Lemma drug_entry_dict (index : nat) (d o : list (string * pyval)) (t : pyval)
    (result : string) :
  lookup "openfda" d = Some (PDict o) ->
  lookup "effective_time" d = Some t ->
  (forall k, In k ["brand_name"; "generic_name"; "manufacturer_name"; "route";
                   "dosage_form"] -> listed_or_missing o k) ->
  purpose_missing_or_text d ->
  drug_entry index (PDict d) result
  = Returned (result ++ name_lines index o ++ purpose_line d
              ++ "   Last Updated: " ++ py_str t ++ nl ++ nl).
Proof.
  intros Ho Ht Hk Hp. unfold drug_entry.
  destruct (openfda_field_shown d o "brand_name" "Unknown Brand" Ho) as (v1 & E1 & S1);
    [apply Hk; simpl; tauto|].
  destruct (openfda_field_shown d o "generic_name" "Not specified" Ho) as (v2 & E2 & S2);
    [apply Hk; simpl; tauto|].
  destruct (openfda_field_shown d o "manufacturer_name" "Not specified" Ho) as (v3 & E3 & S3);
    [apply Hk; simpl; tauto|].
  destruct (openfda_field_shown d o "route" "Not specified" Ho) as (v4 & E4 & S4);
    [apply Hk; simpl; tauto|].
  destruct (openfda_field_shown d o "dosage_form" "Not specified" Ho) as (v5 & E5 & S5);
    [apply Hk; simpl; tauto|].
  rewrite E1. cbn [bind]. rewrite E2. cbn [bind]. rewrite E3. cbn [bind].
  rewrite E4. cbn [bind]. rewrite E5. cbn [bind]. cbv zeta.
  rewrite (purpose_part d _ _ Hp).
  unfold getitem. rewrite Ht. cbn [bind].
  unfold name_lines. rewrite S1, S2, S3, S4, S5. f_equal. assoc.
Qed.

End ReportFacts.

(* ================================================================== *)
(** * The log of requests *)
(* ================================================================== *)

Module LogFacts.
Import Py Http MedicalMcp Claims Extra.

Lemma log_try_except (body : io string) (handler : string -> string)
    (u : upstream) (log : list request) :
  snd (try_except body handler u log) = snd (body u log).
Proof.
  unfold try_except. destruct (body u log) as [[s|e] log']; [reflexivity|].
  now destruct (derives_from_Exception (exn_cls e)).
Qed.

(** Formatting issues no request. *)
Lemma log_bind_lift {A B : Type} (m : io A) (f : A -> outcome B)
    (u : upstream) (log : list request) :
  snd (iobind m (fun a => lift (f a)) u log) = snd (m u log).
Proof. unfold iobind, lift. now destruct (m u log) as [[a|e] log']. Qed.

Lemma log_client_get (r : request) (u : upstream) (log : list request) :
  snd (client_get r u log) = (log ++ [r])%list.
Proof. reflexivity. Qed.

(** What a tool returns when its body raises an instance of [Exception] *)
Lemma try_except_handles (body : io string) (handler : string -> string)
    (u : upstream) (log : list request) (e : exn) :
  fst (body u log) = Raised e -> is_Exception e ->
  fst (try_except body handler u log) = Returned (handler (exn_str e)).
Proof.
  unfold try_except, is_Exception. intros Hb He.
  destruct (body u log) as [[s|e'] log']; simpl in Hb; [discriminate|].
  injection Hb as ->. now rewrite He.
Qed.

Lemma try_except_passes (body : io string) (handler : string -> string)
    (u : upstream) (log : list request) (s : string) :
  fst (body u log) = Returned s ->
  fst (try_except body handler u log) = Returned s.
Proof.
  unfold try_except. intros Hb.
  destruct (body u log) as [[s'|e'] log']; simpl in Hb; [|discriminate].
  now injection Hb as ->.
Qed.

(** A request followed by the reading of its JSON body *)
Lemma fetch_json_fails {A : Type} (u : upstream) (r : request) (e : exn)
    (k : pyval -> outcome A) (log : list request) :
  fetch_fails u r e ->
  fst (iobind (client_get r) (fun res => lift (j <- resp_json res ;; k j)) u log)
  = Raised e.
Proof.
  unfold iobind, client_get, lift.
  intros [H | (res & H & Hj)]; rewrite H; [reflexivity|]. simpl. now rewrite Hj.
Qed.

Lemma fetch_json_answers {A : Type} (u : upstream) (r : request)
    (j : list (string * pyval)) (k : pyval -> outcome A) (log : list request) :
  answers u r j ->
  fst (iobind (client_get r) (fun res => lift (j <- resp_json res ;; k j)) u log)
  = k (PDict j).
Proof.
  unfold iobind, client_get, lift. intros (res & H & Hj). rewrite H. simpl.
  now rewrite Hj.
Qed.

Lemma fst_bind_raised {A B : Type} (m : io A) (k : A -> io B)
    (u : upstream) (log : list request) (e : exn) :
  fst (m u log) = Raised e -> fst (iobind m k u log) = Raised e.
Proof.
  unfold iobind. destruct (m u log) as [[a|e'] log']; simpl; [discriminate|].
  now intros [= ->].
Qed.

Lemma fst_bind_lift {A B : Type} (m : io A) (f : A -> outcome B)
    (u : upstream) (log : list request) (a : A) :
  fst (m u log) = Returned a ->
  fst (iobind m (fun a => lift (f a)) u log) = f a.
Proof.
  unfold iobind, lift. destruct (m u log) as [[a'|e'] log']; simpl; [|discriminate].
  now intros [= ->].
Qed.

End LogFacts.

(* ================================================================== *)
(** * Loops and cut texts *)
(* ================================================================== *)

Module LoopFacts.
Import Py Http MedicalMcp Claims Extra StrFacts.

Lemma str_firstn_all (n : nat) (s : string) :
  (String.length s <= n)%nat -> str_firstn n s = s.
Proof.
  revert n. induction s as [|c s IH]; intros [|n] H; simpl in *; try reflexivity; try lia.
  rewrite IH; [reflexivity | lia].
Qed.

Lemma length_str_firstn (n : nat) (s : string) :
  String.length (str_firstn n s) = Nat.min n (String.length s).
Proof.
  revert n. induction s as [|c s IH]; intros [|n]; simpl; try reflexivity.
  now rewrite IH.
Qed.

Lemma clip_short (n : nat) (s : string) :
  (String.length s <= n)%nat -> clip n s = s.
Proof. intros H. unfold clip. apply Nat.ltb_ge in H. now rewrite H. Qed.

Lemma clip_long (n : nat) (s : string) :
  (n < String.length s)%nat ->
  clip n s = str_firstn n s ++ "..." /\ String.length (clip n s) = (n + 3)%nat.
Proof.
  intros H. unfold clip. pose proof H as H'. apply Nat.ltb_lt in H'. rewrite H'.
  split; [reflexivity|]. rewrite length_app, length_str_firstn. simpl. lia.
Qed.

Lemma str_slice_to_nat (n : nat) (s : string) :
  str_slice_to (Z.of_nat n) s = str_firstn n s.
Proof.
  unfold str_slice_to. destruct (0 <=? Z.of_nat n)%Z eqn:E.
  - now rewrite Nat2Z.id.
  - apply Z.leb_gt in E. lia.
Qed.

(** The cut of a string, as the f-strings of the tools write it *)
Lemma clipped_text (s : string) (n : nat) :
  clipped (Returned (PStr s)) n = Returned (clip n s).
Proof.
  unfold clipped, clip. cbn [bind slice_to len py_str]. rewrite str_slice_to_nat.
  destruct (n <? String.length s)%nat eqn:E; [reflexivity|].
  apply Nat.ltb_ge in E. now rewrite app_nil_r, str_firstn_all.
Qed.

Lemma for_enumerate_app {A : Type} (body : nat -> A -> string -> outcome string)
    (xs ys : list A) (i : nat) (r : string) :
  for_enumerate body i (xs ++ ys) r
  = (r' <- for_enumerate body i xs r ;; for_enumerate body (i + length xs) ys r').
Proof.
  revert i r. induction xs as [|x xs IH]; intros i r; simpl.
  - now rewrite Nat.add_0_r.
  - destruct (body i x r) as [r'|e]; simpl; [|reflexivity].
    rewrite IH. now rewrite Nat.add_succ_r.
Qed.

(** A loop whose body always appends a block *)
Lemma for_enumerate_blocks {A : Type} (body : nat -> A -> string -> outcome string)
    (f : nat -> A -> string) (xs : list A) :
  (forall i x r, In x xs -> body i x r = Returned (r ++ f i x)) ->
  forall i r, for_enumerate body i xs r = Returned (r ++ numbered_blocks f i xs).
Proof.
  induction xs as [|x xs IH]; intros Hb i r; simpl.
  - now rewrite app_nil_r.
  - rewrite Hb by (now left). simpl. rewrite IH by (intros; apply Hb; now right).
    now rewrite app_assoc.
Qed.

Lemma for_enumerate_map_blocks {A B : Type} (body : nat -> B -> string -> outcome string)
    (g : A -> B) (f : nat -> A -> string) (xs : list A) :
  (forall i x r, body i (g x) r = Returned (r ++ f i x)) ->
  forall i r,
    for_enumerate body i (map g xs) r = Returned (r ++ numbered_blocks f i xs).
Proof.
  intros Hb. induction xs as [|x xs IH]; intros i r; simpl.
  - now rewrite app_nil_r.
  - rewrite Hb. simpl. rewrite IH. now rewrite app_assoc.
Qed.

(** A loop that meets an item at which its body raises does not return. *)
Lemma for_enumerate_raises {A : Type} (body : nat -> A -> string -> outcome string)
    (before after : list A) (bad : A) :
  (forall i r, exists e, body i bad r = Raised e) ->
  forall i r, exists e, for_enumerate body i (before ++ bad :: after) r = Raised e.
Proof.
  intros Hbad. induction before as [|x before IH]; intros i r; simpl.
  - destruct (Hbad i r) as (e & ->). now exists e.
  - destruct (body i x r) as [r'|e]; simpl; [apply IH | now exists e].
Qed.

Lemma numbered_blocks_length {A : Type} (f : nat -> A -> string) (xs : list A) (i : nat) :
  (forall j x, f j x <> "") -> numbered_blocks f i xs = "" -> xs = [].
Proof.
  intros Hf. destruct xs as [|x xs]; [reflexivity|]. simpl.
  destruct (f i x) eqn:E; [now apply Hf in E | discriminate].
Qed.

End LoopFacts.

(* ================================================================== *)
(** * The sections of the drug-details report *)
(* ================================================================== *)

Module SectionFacts.
Import Py Http MedicalMcp Claims Extra StrFacts LoopFacts.

Lemma present_field (d : list (string * pyval)) (key : string) :
  present (PDict d) key = Returned (truthy (field d key)).
Proof.
  unfold present, get, getitem, field.
  destruct (lookup key d) as [v|]; cbn [bind truthy]; [|reflexivity].
  now destruct (truthy v).
Qed.

Lemma section_of_texts (d : list (string * pyval)) (key heading : string)
    (line : nat -> pyval -> string -> outcome string) (f : nat -> pyval -> string)
    (result : string) :
  (forall i s r, line i (PStr s) r = Returned (r ++ f i (PStr s))) ->
  absent_or_texts d key ->
  details_section (PDict d) key heading line result
  = Returned (result ++ section_text d key heading f).
Proof.
  intros Hline Hk. unfold details_section, section_text.
  rewrite present_field. cbn [bind].
  destruct Hk as [Hk | (w & ws & Hk)].
  - rewrite Hk. now rewrite app_nil_r.
  - unfold field, getitem. rewrite Hk. cbn [truthy map bind iter].
    rewrite (for_enumerate_blocks line f (PStr w :: map PStr ws)).
    + cbn [bind]. f_equal. now rewrite !app_assoc.
    + intros i x r Hx.
      assert (Hs : exists s, x = PStr s).
      { destruct Hx as [<- | Hx]; [now eexists|].
        apply in_map_iff in Hx as (s & <- & _). now eexists. }
      destruct Hs as (s & ->). apply Hline.
Qed.

Lemma numbered_line_of (i : nat) (s : string) (r : string) :
  numbered i (PStr s) r = Returned (r ++ numbered_line i (PStr s)).
Proof. reflexivity. Qed.

Lemma numbered_clipped_line_of (i : nat) (s : string) (r : string) :
  numbered_clipped i (PStr s) r = Returned (r ++ numbered_clipped_line i (PStr s)).
Proof. unfold numbered_clipped, numbered_clipped_line. now rewrite clipped_text. Qed.

End SectionFacts.

(* ================================================================== *)
(** * Joins *)
(* ================================================================== *)

Module JoinFacts.
Import Py Http MedicalMcp Claims Extra StrFacts.

Lemma join_items_texts (i : nat) (l : list string) :
  join_items i (map PStr l) = Returned l.
Proof.
  revert i. induction l as [|s l IH]; intros i; simpl; [reflexivity|].
  now rewrite IH.
Qed.

Lemma py_join_texts (sep : string) (l : list string) :
  py_join sep (PList (map PStr l)) = Returned (join sep l).
Proof. unfold py_join. now rewrite join_items_texts. Qed.

Lemma chars_firstn (n : nat) (s : string) :
  chars (str_firstn n s) = firstn n (chars s).
Proof.
  revert n. induction s as [|c s IH]; intros [|n]; simpl; try reflexivity.
  now rewrite IH.
Qed.

Lemma length_chars (s : string) : length (chars s) = String.length s.
Proof. induction s as [|c s IH]; simpl; [reflexivity | now rewrite IH]. Qed.

End JoinFacts.

(* ================================================================== *)
(** * What a group captures *)
(* ================================================================== *)

Module CaptureFacts.
Import Py Re Http MedicalMcp Claims Extra StrFacts ReFacts.

Lemma capture_some (ing : bool) (c : ascii) (o : option (string * string))
    (g rest : string) :
  option_map (capture ing c) o = Some (g, rest) ->
  exists g', o = Some (g', rest) /\ g = if ing then String c g' else g'.
Proof.
  destruct o as [[g' rest']|]; simpl; [|discriminate].
  unfold capture. destruct ing; simpl; intros [= <- <-]; now exists g'.
Qed.

(** Every character of the group satisfies what the atoms inside the group
    ask for. *)
Lemma capture_sound (P : ascii -> bool) (p : pattern) :
  forall ing s g rest,
    (forall a, In a (group_atoms p ing) -> forall c, atom_ok a c = true -> P c = true) ->
    match_here p ing s = Some (g, rest) ->
    str_forallb P g = true.
Proof.
  induction p as [|it p IH]; intros ing s g rest Ha H.
  - simpl in H. now injection H as <- _.
  - destruct it as [a | a | | |].
    + destruct s as [|c s]; [discriminate|]. rewrite match_one in H.
      destruct (atom_ok a c) eqn:Hc; [|discriminate].
      apply capture_some in H as (g' & H & ->).
      assert (Hg : str_forallb P g' = true).
      { apply (IH ing s g' rest); [|exact H].
        intros a' Hin. apply Ha. simpl. apply in_or_app. now right. }
      destruct ing; [|exact Hg]. simpl. rewrite Hg, andb_true_r.
      apply (Ha a); [simpl; now left | exact Hc].
    + revert g rest H. induction s as [|c s IHs]; intros g rest H.
      * rewrite match_star_empty in H. apply (IH ing "" g rest); [|exact H].
        intros a' Hin. apply Ha. simpl. apply in_or_app. now right.
      * rewrite match_star in H.
        assert (K : match_here p ing (String c s) = Some (g, rest) ->
                    str_forallb P g = true).
        { intros K. apply (IH ing (String c s) g rest); [|exact K].
          intros a' Hin. apply Ha. simpl. apply in_or_app. now right. }
        destruct (atom_ok a c) eqn:Hc; [|now apply K].
        destruct (match_here (Star a :: p) ing s) as [[g' rest']|] eqn:Hs; [|now apply K].
        pose proof (IHs g' rest' eq_refl) as Hg.
        unfold capture in H. destruct ing; simpl in H; injection H as <- <-;
          [|exact Hg].
        simpl. rewrite Hg, andb_true_r. apply (Ha a); [simpl; now left | exact Hc].
    + rewrite match_open in H. apply (IH true s g rest); [exact Ha | exact H].
    + rewrite match_close in H. apply (IH false s g rest); [exact Ha | exact H].
    + simpl in H. destruct (at_eol s); [|discriminate].
      apply (IH ing s g rest); [exact Ha | exact H].
Qed.

(** The group is at least as long as the single characters asked for
    inside it. *)
Lemma capture_length (p : pattern) :
  forall ing s g rest,
    match_here p ing s = Some (g, rest) ->
    (group_ones p ing <= String.length g)%nat.
Proof.
  induction p as [|it p IH]; intros ing s g rest H.
  - simpl. lia.
  - destruct it as [a | a | | |].
    + destruct s as [|c s]; [discriminate|]. rewrite match_one in H.
      destruct (atom_ok a c); [|discriminate].
      apply capture_some in H as (g' & H & ->).
      pose proof (IH ing s g' rest H). destruct ing; simpl in *; lia.
    + revert g rest H. induction s as [|c s IHs]; intros g rest H.
      * rewrite match_star_empty in H. exact (IH ing "" g rest H).
      * rewrite match_star in H.
        destruct (atom_ok a c); [|exact (IH ing _ g rest H)].
        destruct (match_here (Star a :: p) ing s) as [[g' rest']|] eqn:Hs;
          [|exact (IH ing _ g rest H)].
        pose proof (IHs g' rest' eq_refl) as Hg.
        unfold capture in H. destruct ing; simpl in H; injection H as <- <-;
          simpl in *; lia.
    + rewrite match_open in H. exact (IH true s g rest H).
    + rewrite match_close in H. exact (IH false s g rest H).
    + simpl in H. destruct (at_eol s); [|discriminate]. exact (IH ing s g rest H).
Qed.

(** Every text that [findall] returns is the group of a match. *)
Lemma findall_from_matches (p : pattern) (fuel : nat) :
  forall s g, In g (findall_from fuel p s) ->
              exists s' rest, match_here p false s' = Some (g, rest).
Proof.
  induction fuel as [|fuel IH]; intros s g H; simpl in H; [contradiction|].
  assert (Skip : In g (match s with
                       | "" => []
                       | String _ s' => findall_from fuel p s'
                       end) ->
                 exists s' rest, match_here p false s' = Some (g, rest)).
  { destruct s as [|c s]; [contradiction | apply IH]. }
  destruct (match_here p false s) as [[g' rest]|] eqn:E; [|now apply Skip].
  destruct H as [<- | H]; [now exists s, rest|].
  destruct (String.length rest <? String.length s)%nat; [now apply IH in H | now apply Skip].
Qed.

Lemma pmid_is_digits (x g : string) :
  In g (findall pmid_re x) -> g <> "" /\ str_forallb is_digit g = true.
Proof.
  intros H. apply findall_from_matches in H as (s' & rest & H). split.
  - apply capture_length in H. change (group_ones pmid_re false) with 1%nat in H.
    destruct g; [simpl in H; lia | discriminate].
  - apply (capture_sound is_digit pmid_re false s' g rest); [|exact H].
    intros a [<- | [<- | []]] c Hc; exact Hc.
Qed.

Lemma title_has_no_markup (x g : string) :
  In g (findall article_title_re x) -> g <> "" /\ str_contains_char "<" g = false.
Proof.
  intros H. apply findall_from_matches in H as (s' & rest & H). split.
  - apply capture_length in H. change (group_ones article_title_re false) with 1%nat in H.
    destruct g; [simpl in H; lia | discriminate].
  - assert (F : str_forallb (fun c => negb (Ascii.eqb c "<")) g = true).
    { apply (capture_sound _ article_title_re false s' g rest); [|exact H].
      intros a [<- | [<- | []]] c Hc; exact Hc. }
    clear H. induction g as [|c g IH]; [reflexivity|].
    simpl in F. apply andb_prop in F as [Fc Fg].
    change (Ascii.eqb "<" c || str_contains_char "<" g = false).
    rewrite (Ascii.eqb_sym "<" c). apply negb_true_iff in Fc. rewrite Fc.
    now apply IH.
Qed.

(** What the literature search returns when it returns *)
Lemma search_pubmed_articles_shape (query : string) (max_results : Z) (u : upstream)
    (log : list request) (v : pyval) :
  fst (search_pubmed_articles query max_results u log) = Returned v ->
  exists ms, v = PList (map pubmed_article ms)
             /\ forall m, In m ms ->
                  (fst m <> "" /\ str_forallb is_digit (fst m) = true)
                  /\ (snd m <> "" /\ str_contains_char "<" (snd m) = false).
Proof.
  unfold search_pubmed_articles, iobind, client_get, lift, ret.
  destruct (u (esearch_request query max_results)) as [search_res|e]; [|discriminate].
  destruct (esearch_idlist search_res) as [id_list|e]; [|discriminate].
  destruct (truthy id_list); cbn [negb].
  - destruct (py_join "," id_list) as [ids|e]; [|discriminate].
    destruct (u (efetch_request ids)) as [fetch_res|e]; [|discriminate].
    simpl. intros [= <-]. eexists. split; [reflexivity|].
    intros [pm ti] Hm. split.
    + apply in_combine_l in Hm. exact (pmid_is_digits _ _ Hm).
    + apply in_combine_r in Hm. exact (title_has_no_markup _ _ Hm).
  - simpl. intros [= <-]. exists []. split; [reflexivity | intros m []].
Qed.

Lemma article_entry_block (i : nat) (m : string * string) (r : string) :
  article_entry i (pubmed_article m) r = Returned (r ++ literature_block i m).
Proof.
  unfold article_entry, pubmed_article, literature_block, getitem, get.
  simpl lookup. cbn [bind truthy py_str]. f_equal. now rewrite !app_assoc.
Qed.

End CaptureFacts.

(* ================================================================== *)
(** * The parse tree *)
(* ================================================================== *)

Module TreeFacts.
Import Py Http MedicalMcp Claims Extra.

Lemma node_forall (P : Soup.node -> Prop) :
  (forall s, P (Soup.NavigableString s)) ->
  (forall s, P (Soup.Comment s)) ->
  (forall name a kids, Forall P kids -> P (Soup.Tag name a kids)) ->
  forall n, P n.
Proof.
  intros Hs Hc Ht. fix IH 1. intros [s | s | name a kids].
  - apply Hs.
  - apply Hc.
  - apply Ht. induction kids as [|k kids IHk]; constructor; [apply IH | exact IHk].
Qed.

(** The tags of a subtree: its root, then the descendants of the root. *)
Lemma tags_of_tag (parents : list (string * Soup.attrs)) (name : string)
    (a : Soup.attrs) (kids : list Soup.node) :
  Soup.tags_of parents (Soup.Tag name a kids)
  = Soup.Element parents name a kids
    :: Soup.descendants (Soup.Element parents name a kids).
Proof.
  reflexivity.
Qed.

Lemma descendants_in_subtree (n : Soup.node) :
  forall parents e e',
    In e (Soup.tags_of parents n) -> In e' (Soup.descendants e) ->
    In e' (Soup.tags_of parents n).
Proof.
  induction n as [s | s | name a kids IH] using node_forall; intros parents e e' He He';
    try contradiction.
  rewrite tags_of_tag in *. destruct He as [<- | He]; [now right|]. right.
  unfold Soup.descendants in He |- *. simpl in *.
  apply in_flat_map in He as (k & Hk & He). apply in_flat_map. exists k.
  split; [exact Hk|]. rewrite Forall_forall in IH. exact (IH k Hk _ e e' He He').
Qed.

(** A descendant of a descendant is a descendant. *)
Lemma descendants_trans (root e e' : Soup.element) :
  In e (Soup.descendants root) -> In e' (Soup.descendants e) ->
  In e' (Soup.descendants root).
Proof.
  unfold Soup.descendants at 1 3. intros He He'.
  apply in_flat_map in He as (k & Hk & He). apply in_flat_map. exists k.
  split; [exact Hk | exact (descendants_in_subtree k _ e e' He He')].
Qed.

Lemma optional_line_text (d : list (string * pyval)) (key label : string) (r : string) :
  optional_line (PDict d) key label r
  = Returned (r ++ optional_text label (field d key)).
Proof.
  unfold optional_line, optional_text, get, getitem, field.
  destruct (lookup key d) as [v|]; cbn [bind truthy].
  - destruct (truthy v); cbn [bind]; [reflexivity | now rewrite StrFacts.app_nil_r].
  - now rewrite StrFacts.app_nil_r.
Qed.

Lemma scholar_entry_block (i : nat) (e : Soup.element) (r : string) :
  scholar_entry i (block_record e) r = Returned (r ++ scholar_block i e).
Proof.
  unfold scholar_entry, block_record. cbv zeta.
  unfold getitem at 1. simpl lookup. cbn [bind py_str].
  do 5 (rewrite optional_line_text; cbn [bind]).
  unfold get, field. simpl lookup. cbn [bind truthy].
  unfold scholar_block. cbv zeta.
  destruct (text_of (abstract_element_of e) =? "") eqn:E; cbn [negb bind].
  - f_equal. now rewrite !StrFacts.app_assoc.
  - unfold getitem. simpl lookup. cbv beta iota.
    rewrite LoopFacts.clipped_text. cbn [bind].
    f_equal. now rewrite !StrFacts.app_assoc.
Qed.

End TreeFacts.

(* ================================================================== *)
(** * The properties of the tools *)
(* ================================================================== *)

Import Py Re Http MedicalMcp Claims.

(** C1: against an upstream whose failures are instances of [Exception]
    (a request that fails, a body that is not JSON), and whatever the
    responses hold, each of the six tools returns a string: no exception
    passes the tool boundary. *)
Theorem every_tool_returns_a_string (u : upstream) (log : list request) :
  fails_with_Exception u ->
  (forall query limit, exists s, fst (search_drugs_tool query limit u log) = Returned s)
  /\ (forall ndc, exists s, fst (get_drug_details_tool ndc u log) = Returned s)
  /\ (forall indicator country limit,
         exists s, fst (get_health_statistics_tool indicator country limit u log) = Returned s)
  /\ (forall query max_results,
         exists s, fst (search_medical_literature_tool query max_results u log) = Returned s)
  /\ (forall query, exists s, fst (search_drug_nomenclature_tool query u log) = Returned s)
  /\ (forall query, exists s, fst (search_google_scholar_tool query u log) = Returned s).
Proof.
  intros Hu. repeat split; intros.
  - apply (BoundaryFacts.returns_search_drugs_tool u Hu).
  - apply (BoundaryFacts.returns_get_drug_details_tool u Hu).
  - apply (BoundaryFacts.returns_get_health_statistics_tool u Hu).
  - apply (BoundaryFacts.returns_search_medical_literature_tool u Hu).
  - apply (BoundaryFacts.returns_search_drug_nomenclature_tool u Hu).
  - apply (BoundaryFacts.returns_search_google_scholar_tool u Hu).
Qed.

(** C1 at an upstream that never answers, and at one that answers with
    a number where a drug record is expected. *)
Lemma every_tool_returns_a_string_unreachable :
  fails_with_Exception unreachable
  /\ (exists s, fst (search_drugs_tool "aspirin" 3 unreachable []) = Returned s)
  /\ fst (search_drugs_tool "aspirin" 3 unreachable [])
     = Returned "Error searching drugs: All connection attempts failed"
  /\ fst (search_drugs_tool "aspirin" 3 malformed_drugs [])
     = Returned "Error searching drugs: 'int' object is not subscriptable".
Proof.
  assert (H : fails_with_Exception unreachable) by (intros r; reflexivity).
  split; [exact H|]. split; [|split; reflexivity].
  exact (proj1 (every_tool_returns_a_string unreachable [] H) "aspirin" 3%Z).
Defined.




(** C3, as the code has it: the year is the leftmost four digits in a row of
    the first text, among the author text, the title and the abstract in
    that order, that has four digits in a row, whether or not more digits
    follow or precede them; it is empty when none of the three texts has
    four digits in a row.  Author text "Smith J, 2020", title "Review" and
    abstract "Published 2019" give "2020". *)
Theorem year_is_first_four_digits_in_priority_order :
  (forall authors title abstract : string,
      let y := derive_year authors title abstract in
      first_four_digits authors y
      \/ (no_four_digits authors /\ first_four_digits title y)
      \/ (no_four_digits authors /\ no_four_digits title
          /\ first_four_digits abstract y)
      \/ (no_four_digits authors /\ no_four_digits title
          /\ no_four_digits abstract /\ y = ""))
  /\ derive_year "Smith J, 2020" "Review" "Published 2019" = "2020".
Proof.
  split; [|reflexivity].
  intros authors title abstract. cbv zeta. unfold derive_year. simpl map. simpl first_match.
  destruct (search year_re authors) as [y|] eqn:Ea.
  { apply PatternFacts.search_year_some in Ea.
    rewrite (PatternFacts.four_digits_not_empty y (proj1 Ea)). now left. }
  apply PatternFacts.search_year_none in Ea.
  destruct (search year_re title) as [y|] eqn:Et.
  { apply PatternFacts.search_year_some in Et.
    rewrite (PatternFacts.four_digits_not_empty y (proj1 Et)). right; left. now split. }
  apply PatternFacts.search_year_none in Et.
  destruct (search year_re abstract) as [y|] eqn:Eb.
  { apply PatternFacts.search_year_some in Eb.
    rewrite (PatternFacts.four_digits_not_empty y (proj1 Eb)).
    right; right; left. split; [exact Ea | split; [exact Et | exact Eb]]. }
  apply PatternFacts.search_year_none in Eb.
  right; right; right. split; [exact Ea | split; [exact Et | split; [exact Eb | reflexivity]]].
Qed.

(** C3, as stated, fails: no text of this candidate has a run of exactly
    four digits, and its year is not empty; and where a later run has
    exactly four digits, the year is still cut from the longer run. *)
Lemma year_cut_from_a_longer_run :
  has_run_of_exactly_four "PMID 12345" = false
  /\ has_run_of_exactly_four "Review" = false
  /\ has_run_of_exactly_four "" = false
  /\ derive_year "PMID 12345" "Review" "" = "1234"
  /\ has_run_of_exactly_four "PMID 12345, 2020" = true
  /\ derive_year "PMID 12345, 2020" "Review" "" = "1234".
Proof. repeat split; reflexivity. Qed.

(** C4, as the code has it: the journal is the stripped text of the first
    of three patterns that matches the author text: a hyphen and a space
    followed, up to the end, by text without a hyphen; else a comma and a
    space followed, up to the end, by text without a comma; else the
    leftmost "in " (inside a word or not) that a character other than a
    comma follows, with the text after it up to the next comma.  The journal
    is empty when none matches.  "J Smith - Nature" gives "Nature" and
    "J Smith, Cell Press" gives "Cell Press". *)
Theorem journal_is_first_matching_pattern :
  (forall authors : string,
      let j := derive_journal authors in
      let no_hyphen_tail := forall g, ~ tail_after "- " "-" authors g in
      let no_comma_tail := forall g, ~ tail_after ", " "," authors g in
      (exists g, tail_after "- " "-" authors g /\ j = strip g)
      \/ (no_hyphen_tail /\ exists g, tail_after ", " "," authors g /\ j = strip g)
      \/ (no_hyphen_tail /\ no_comma_tail
          /\ exists g, phrase_after_in authors g /\ j = strip g)
      \/ (no_hyphen_tail /\ no_comma_tail
          /\ (forall pre c r, authors = pre ++ "in " ++ String c r -> c = ","%char)
          /\ j = ""))
  /\ derive_journal "J Smith - Nature" = "Nature"
  /\ derive_journal "J Smith, Cell Press" = "Cell Press".
Proof.
  split; [|split; reflexivity].
  intros authors. cbv zeta. unfold derive_journal. simpl first_match.
  change dash_re with (tail_pattern "-"). change comma_re with (tail_pattern ",").
  destruct (search (tail_pattern "-") authors) as [g|] eqn:Ed.
  { apply (PatternFacts.search_tail_some "-" _ _ PatternFacts.hyphen_not_newline) in Ed.
    rewrite (PatternFacts.tail_after_not_empty _ _ _ _ Ed). left. now exists g. }
  pose proof (PatternFacts.search_tail_none "-" _ PatternFacts.hyphen_not_newline Ed) as Nd.
  destruct (search (tail_pattern ",") authors) as [g|] eqn:Ec.
  { apply (PatternFacts.search_tail_some "," _ _ PatternFacts.comma_not_newline) in Ec.
    rewrite (PatternFacts.tail_after_not_empty _ _ _ _ Ec).
    right; left. split; [exact Nd | now exists g]. }
  pose proof (PatternFacts.search_tail_none "," _ PatternFacts.comma_not_newline Ec) as Nc.
  destruct (search in_re authors) as [g|] eqn:Ei.
  { apply PatternFacts.search_in_some in Ei.
    rewrite (PatternFacts.phrase_not_empty _ _ Ei).
    right; right; left. split; [exact Nd | split; [exact Nc | now exists g]]. }
  right; right; right. split; [exact Nd | split; [exact Nc | split]].
  - exact (PatternFacts.search_in_none _ Ei).
  - reflexivity.
Qed.

(** C4, as stated, fails: this author text has no " - ", no ", " and no
    word "in", and its journal is not empty. *)
Lemma journal_from_in_inside_a_name :
  str_contains " - " "Kevin Martin" = false
  /\ str_contains ", " "Kevin Martin" = false
  /\ occurs_as_word "in " false "Kevin Martin" = false
  /\ derive_journal "Kevin Martin" = "Martin".
Proof. repeat split; reflexivity. Qed.

(** C5: when the identifier list that phase 1 reads off the search response
    is empty, the extractor returns the empty list, the tool returns the
    "no articles found" message, and the only request issued is the search
    request: a fetch request is in the log afterwards only if it was there
    before. *)
Theorem empty_identifier_list_skips_the_fetch
    (query : string) (max_results : Z) (u : upstream) (log : list request)
    (search_res : response) :
  u (esearch_request query max_results) = Returned search_res ->
  esearch_idlist search_res = Returned (PList []) ->
  search_pubmed_articles query max_results u log
    = (Returned (PList []), (log ++ [esearch_request query max_results])%list)
  /\ search_medical_literature_tool query max_results u log
    = (Returned (no_articles_message query),
       (log ++ [esearch_request query max_results])%list)
  /\ forall ids,
       In (efetch_request ids)
          (snd (search_medical_literature_tool query max_results u log)) ->
       In (efetch_request ids) log.
Proof.
  intros Hu Hids.
  assert (E : search_pubmed_articles query max_results u log
              = (Returned (PList []), (log ++ [esearch_request query max_results])%list)).
  { unfold search_pubmed_articles, iobind, client_get, lift. rewrite Hu, Hids. reflexivity. }
  assert (T : search_medical_literature_tool query max_results u log
              = (Returned (no_articles_message query),
                 (log ++ [esearch_request query max_results])%list)).
  { unfold search_medical_literature_tool, try_except, iobind. rewrite E. reflexivity. }
  split; [exact E | split; [exact T |]].
  intros ids. rewrite T. simpl. intros H. apply in_app_or in H as [H | [H | []]].
  - exact H.
  - discriminate H.
Qed.

(** C5 at a literature source whose search finds no identifier. *)
Lemma empty_identifier_list_at_no_identifiers :
  no_identifiers (esearch_request "aspirin" 5) = Returned (json_response
    (PDict [("esearchresult", PDict [("idlist", PList [])])]))
  /\ search_medical_literature_tool "aspirin" 5 no_identifiers []
     = (Returned (no_articles_message "aspirin"), [esearch_request "aspirin" 5]).
Proof.
  split; [reflexivity|].
  exact (proj1 (proj2 (empty_identifier_list_skips_the_fetch
                         "aspirin" 5 no_identifiers [] _ eq_refl eq_refl))).
Defined.

(** C6: the scraper returns the records of exactly the candidate blocks
    whose title is longer than five characters, in document order; the loop
    leaves the results as they are at a block whose title has five
    characters or fewer, whatever else the block holds; and every record
    returned has a title longer than five characters. *)
Theorem short_titles_are_excluded
    (query : string) (u : upstream) (log : list request) (res : response) :
  u (scholar_request query) = Returned res ->
  let blocks := candidate_blocks (Soup.BeautifulSoup (resp_markup res)) in
  let records := map block_record (filter has_long_title blocks) in
  search_google_scholar query u log
    = (Returned (PList records), (log ++ [scholar_request query])%list)
  /\ (forall e results,
         In e blocks -> (String.length (block_title e) <= 5)%nat ->
         scrape_block results e = results)
  /\ (forall r, In r records ->
         exists d t, r = PDict d /\ lookup "title" d = Some (PStr t)
                     /\ (5 < String.length t)%nat).
Proof.
  intros Hu blocks records. split; [|split].
  - unfold search_google_scholar, random_delay, iobind, ret, client_get.
    rewrite Hu. now rewrite ScrapeFacts.fold_scrape.
  - intros e results _ Hshort. rewrite ScrapeFacts.scrape_block_long.
    unfold has_long_title. apply Nat.ltb_ge in Hshort. now rewrite Hshort.
  - intros r Hr. unfold records in Hr. apply in_map_iff in Hr as (e & <- & He).
    apply filter_In in He as [_ Hlong].
    destruct (ScrapeFacts.block_record_title e) as (d & Hd & Ht).
    exists d, (block_title e). repeat split; auto.
    now apply Nat.ltb_lt.
Qed.

(** C6 at a page with one proper block and one block with a short title. *)
Lemma short_titles_are_excluded_at_scholar_page :
  scholar_page (scholar_request "aspirin")
    = Returned (Response "" (raise JSONDecodeError "Expecting value") two_blocks_page)
  /\ exists r, fst (search_google_scholar "aspirin" scholar_page []) = Returned (PList [r])
               /\ lookup "title" (match r with PDict d => d | _ => [] end)
                  = Some (PStr "Aspirin in primary prevention").
Proof.
  split; [reflexivity|].
  destruct (short_titles_are_excluded "aspirin" scholar_page [] _ eq_refl) as (E & _ & _).
  rewrite E. eexists. split; reflexivity.
Defined.

(** C7, as the code has it: the candidate blocks are all the tags of the
    page that carry the class gs_r, or the class gs_ri, or an attribute
    data-rp, in document order; the three alternatives form one selector
    and none of them waits for another to match nothing. *)
Theorem blocks_are_the_union_of_the_alternatives (soup : Soup.element) :
  candidate_blocks soup = filter is_block (Soup.descendants soup).
Proof.
  unfold candidate_blocks, Soup.select. apply filter_ext. intros e.
  unfold Soup.matches, block_selector, is_block, cls. simpl.
  now rewrite !andb_true_r, orb_false_r, orb_assoc.
Qed.

(** C7, as stated, fails: on this page every alternative matches one block,
    so selection by ordered fallbacks yields one block in whichever order
    the alternatives are tried, and the scraper goes through three. *)
Lemma blocks_of_every_alternative_are_selected :
  length (candidate_blocks three_blocks) = 3%nat
  /\ map (fun order => length (select_with_fallbacks order three_blocks)) fallback_orders
     = [1; 1; 1; 1; 1; 1]%nat.
Proof. split; reflexivity. Qed.

(** C8, as the code has it: for a drug record with an [openfda] map, a
    name field that the map lacks is rendered by its placeholder rather than
    by a fault: "Unknown Brand" for the brand name, "Not specified" for
    the generic name, the manufacturer, the route and the dosage form.  When
    the record also has a date, and each name field is missing or lists a
    name, the whole entry of the drug-search report is built without a
    fault. *)
Theorem missing_names_print_placeholders
    (index : nat) (d o : list (string * pyval)) (result : string) :
  lookup "openfda" d = Some (PDict o) ->
  (lookup "brand_name" o = None ->
   openfda_field (PDict d) "brand_name" "Unknown Brand" = Returned (PStr "Unknown Brand"))
  /\ (forall k, In k ["generic_name"; "manufacturer_name"; "route"; "dosage_form"] ->
                lookup k o = None ->
                openfda_field (PDict d) k "Not specified" = Returned (PStr "Not specified")
                /\ shown o k "Not specified" = "Not specified")
  /\ (forall t,
         lookup "effective_time" d = Some t ->
         (forall k, In k ["brand_name"; "generic_name"; "manufacturer_name"; "route";
                          "dosage_form"] -> listed_or_missing o k) ->
         purpose_missing_or_text d ->
         drug_entry index (PDict d) result
         = Returned (result ++ name_lines index o ++ purpose_line d
                     ++ "   Last Updated: " ++ py_str t ++ nl ++ nl)).
Proof.
  intros Ho. split; [|split].
  - intros H. unfold openfda_field, getitem, get. rewrite Ho. cbn [bind]. now rewrite H.
  - intros k _ H. split.
    + unfold openfda_field, getitem, get. rewrite Ho. cbn [bind]. now rewrite H.
    + unfold shown. now rewrite H.
  - intros t Ht Hk Hp.
    exact (ReportFacts.drug_entry_dict index d o t result Ho Ht Hk Hp).
Qed.

(** C8 at a record with a brand name only: the generic name prints as
    "Not specified". *)
Lemma brand_only_prints_not_specified :
  purpose_missing_or_text
    [("openfda", PDict [("brand_name", PList [PStr "Advil"])]);
     ("effective_time", PStr "20200101")]
  /\ drug_entry 1 brand_only_drug ""
     = Returned ("1. **Advil**" ++ nl
                 ++ "   Generic Name: Not specified" ++ nl
                 ++ "   Manufacturer: Not specified" ++ nl
                 ++ "   Route: Not specified" ++ nl
                 ++ "   Dosage Form: Not specified" ++ nl
                 ++ "   Last Updated: 20200101" ++ nl ++ nl).
Proof.
  assert (P : purpose_missing_or_text
                [("openfda", PDict [("brand_name", PList [PStr "Advil"])]);
                 ("effective_time", PStr "20200101")]) by (left; reflexivity).
  split; [exact P|].
  refine (proj2 (proj2 (missing_names_print_placeholders 1
            [("openfda", PDict [("brand_name", PList [PStr "Advil"])]);
             ("effective_time", PStr "20200101")]
            [("brand_name", PList [PStr "Advil"])] "" eq_refl))
            (PStr "20200101") eq_refl _ P).
  intros k [<- | [<- | [<- | [<- | [<- | []]]]]];
    solve [left; reflexivity | right; do 2 eexists; reflexivity].
Defined.

(** C8, as stated, fails: a record without a brand name prints "Unknown
    Brand" where the claim has "Not specified". *)
Lemma missing_brand_prints_unknown_brand :
  drug_entry 1 unbranded_drug ""
  = Returned ("1. **Unknown Brand**" ++ nl
              ++ "   Generic Name: ibuprofen" ++ nl
              ++ "   Manufacturer: Not specified" ++ nl
              ++ "   Route: Not specified" ++ nl
              ++ "   Dosage Form: Not specified" ++ nl
              ++ "   Last Updated: 20200101" ++ nl ++ nl).
Proof. reflexivity. Qed.



(** C10: for a record that has the fields every entry prints, the entry
    has the line "Range: Low - High" exactly when [Low] and [High] are both
    present and true as Python values; in particular the line is left out
    when [Low] or [High] is the number zero, present or not. *)
Theorem range_line_needs_both_bounds_true
    (index : nat) (d : list (string * pyval)) (result : string)
    (s t v c n dt : pyval) :
  lookup "SpatialDim" d = Some s -> lookup "TimeDim" d = Some t ->
  lookup "Value" d = Some v -> lookup "Comments" d = Some c ->
  lookup "NumericValue" d = Some n -> lookup "Date" d = Some dt ->
  let low := field d "Low" in
  let high := field d "High" in
  indicator_entry index (PDict d) result
    = Returned (result ++ indicator_lines index s t v c n
                ++ (if truthy low && truthy high then range_line low high else "")
                ++ date_line dt)
  /\ (lookup "Low" d = None \/ lookup "High" d = None ->
      truthy low && truthy high = false)
  /\ (is_zero low = true \/ is_zero high = true ->
      indicator_entry index (PDict d) result
        = Returned (result ++ indicator_lines index s t v c n ++ date_line dt)).
Proof.
  intros Hs Ht Hv Hc Hn Hd low high.
  pose proof (FormatFacts.indicator_entry_dict index d result s t v c n dt
                Hs Ht Hv Hc Hn Hd) as E.
  fold low high in E. split; [exact E | split].
  - unfold low, high, field. intros [H | H]; rewrite H; simpl;
      [reflexivity | apply andb_false_r].
  - intros Hz. rewrite E.
    assert (F : truthy low && truthy high = false).
    { destruct Hz as [Hz | Hz].
      - destruct low as [| | z | f | | |]; try discriminate; simpl in *.
        + now rewrite Hz.
        + now destruct (float_nonzero f).
      - rewrite andb_comm.
        destruct high as [| | z | f | | |]; try discriminate; simpl in *.
        + now rewrite Hz.
        + now destruct (float_nonzero f). }
    rewrite F. reflexivity.
Qed.

(** C10 at a record whose [Low] is 0 and whose [High] is 80: no range line. *)
Lemma range_line_left_out_for_zero_low :
  lookup "Date" (sample_indicator (PInt 0) (PInt 80)) = Some (PStr "2020-12-04")
  /\ indicator_entry 1 (PDict (sample_indicator (PInt 0) (PInt 80))) ""
     = Returned ("1. **USA** (2019)" ++ nl
                 ++ "   Value: 78.5 " ++ nl
                 ++ "   Numeric Value: 78.5" ++ nl
                 ++ "   Date: 2020-12-04" ++ nl ++ nl).
Proof.
  split; [reflexivity|].
  refine (proj2 (proj2 (range_line_needs_both_bounds_true 1
            (sample_indicator (PInt 0) (PInt 80)) "" _ _ _ _ _ _
            eq_refl eq_refl eq_refl eq_refl eq_refl eq_refl)) _).
  left. reflexivity.
Defined.

(* ================================================================== *)
(** * Further properties *)
(* ================================================================== *)

Import Extra.

(** X1: whatever the upstream does, an invocation of the drug search, the
    drug details, the health statistics, the nomenclature search or the
    academic search issues exactly one request: there is no retry and no
    second call. *)
Theorem one_request_per_invocation (u : upstream) (log : list request) :
  (forall query limit,
      snd (search_drugs_tool query limit u log)
      = (log ++ [search_drugs_request query limit])%list)
  /\ (forall ndc,
         snd (get_drug_details_tool ndc u log) = (log ++ [ndc_request ndc])%list)
  /\ (forall indicator country limit,
         snd (get_health_statistics_tool indicator country limit u log)
         = (log ++ [health_request indicator country])%list)
  /\ (forall query,
         snd (search_drug_nomenclature_tool query u log)
         = (log ++ [rxnorm_request query])%list)
  /\ (forall query,
         snd (search_google_scholar_tool query u log)
         = (log ++ [scholar_request query])%list).
Proof.
  repeat split; intros;
    match goal with
    | |- snd (?tool _ _ _ _ _) = _ => unfold tool
    | |- snd (?tool _ _ _ _) = _ => unfold tool
    | |- snd (?tool _ _ _) = _ => unfold tool
    end;
    rewrite LogFacts.log_try_except, LogFacts.log_bind_lift.
  - unfold search_drugs. now rewrite LogFacts.log_bind_lift.
  - unfold get_drug_by_ndc. now rewrite LogFacts.log_bind_lift.
  - unfold get_health_indicators. now rewrite LogFacts.log_bind_lift.
  - unfold search_rxnorm_drugs. now rewrite LogFacts.log_bind_lift.
  - unfold search_google_scholar, random_delay, iobind, ret, client_get.
    now destruct (u (scholar_request query)).
Qed.

(** X2: the literature search issues the search request first and at most
    one fetch request after it; the fetch is issued only when the search
    was answered with a list of identifiers that is true as a Python value,
    and it carries those identifiers joined by commas. *)
Theorem literature_issues_at_most_two_requests
    (query : string) (max_results : Z) (u : upstream) (log : list request) :
  let after := snd (search_medical_literature_tool query max_results u log) in
  after = (log ++ [esearch_request query max_results])%list
  \/ exists search_res id_list ids,
       u (esearch_request query max_results) = Returned search_res
       /\ esearch_idlist search_res = Returned id_list
       /\ truthy id_list = true
       /\ py_join "," id_list = Returned ids
       /\ after = (log ++ [esearch_request query max_results; efetch_request ids])%list.
Proof.
  cbv zeta. unfold search_medical_literature_tool.
  rewrite LogFacts.log_try_except, LogFacts.log_bind_lift.
  unfold search_pubmed_articles, iobind, client_get, lift, ret.
  destruct (u (esearch_request query max_results)) as [search_res|e] eqn:Hu;
    [|now left].
  destruct (esearch_idlist search_res) as [id_list|e] eqn:Hi; [|now left].
  destruct (truthy id_list) eqn:Ht; cbn [negb]; [|now left].
  destruct (py_join "," id_list) as [ids|e] eqn:Hj; [|now left].
  right. exists search_res, id_list, ids. repeat split; auto.
  destruct (u (efetch_request ids)); simpl; now rewrite <- List.app_assoc.
Qed.



(** X4: when the response is a JSON object in which the key that holds the
    records ([results] for the drug search and the drug details, [value]
    for the health statistics) is missing, or holds a value that is false
    as a Python value (an empty list, null), the tool returns its "nothing
    found" message, not an error.  The nomenclature search returns its
    "nothing found" message when the key [drugGroup] is missing; when
    [drugGroup] holds a value that is not an object (null, an empty list)
    it returns an error message instead, which says that a value of that
    type has no [get]. *)
Theorem missing_records_mean_nothing_found
    (u : upstream) (log : list request) (j : list (string * pyval)) :
  (forall query limit,
      answers u (search_drugs_request query limit) j ->
      truthy (field j "results") = false ->
      fst (search_drugs_tool query limit u log)
      = Returned ("No drugs found matching '" ++ query
                  ++ "'. Try a different search term."))
  /\ (forall ndc,
         answers u (ndc_request ndc) j ->
         truthy (field j "results") = false ->
         fst (get_drug_details_tool ndc u log)
         = Returned ("No drug found with NDC: " ++ ndc))
  /\ (forall indicator country limit,
         answers u (health_request indicator country) j ->
         truthy (field j "value") = false ->
         fst (get_health_statistics_tool indicator country limit u log)
         = Returned ("No health indicators found for '" ++ indicator ++ "'"
                     ++ (if given country then " in " ++ text country else "")
                     ++ ". Try a different search term."))
  /\ (forall query,
         answers u (rxnorm_request query) j ->
         lookup "drugGroup" j = None ->
         fst (search_drug_nomenclature_tool query u log)
         = Returned ("No drugs found in RxNorm database for '" ++ query
                     ++ "'. Try a different search term."))
  /\ (forall query v,
         answers u (rxnorm_request query) j ->
         lookup "drugGroup" j = Some v ->
         (forall d, v <> PDict d) ->
         fst (search_drug_nomenclature_tool query u log)
         = Returned ("Error searching RxNorm: '" ++ type_name v
                     ++ "' object has no attribute 'get'")).
Proof.
  repeat split; intros.
  - apply LogFacts.try_except_passes.
    assert (E : exists v, fst (search_drugs query limit u log) = Returned v
                          /\ truthy v = false).
    { unfold search_drugs. rewrite (LogFacts.fetch_json_answers u _ j _ log H).
      unfold get, field in *. destruct (lookup "results" j) as [v|]; eauto. }
    destruct E as (v & E & F).
    rewrite (LogFacts.fst_bind_lift _ _ u log v E). now rewrite F.
  - apply LogFacts.try_except_passes.
    rewrite (LogFacts.fst_bind_lift _ _ u log PNone); [reflexivity|].
    unfold get_drug_by_ndc.
    rewrite (LogFacts.fetch_json_answers u (ndc_request ndc) j _ log H).
    unfold get, field in *. destruct (lookup "results" j) as [v|]; cbn [bind].
    + now rewrite H0.
    + reflexivity.
  - apply LogFacts.try_except_passes.
    assert (E : exists v, fst (get_health_indicators indicator country u log) = Returned v
                          /\ truthy v = false).
    { unfold get_health_indicators.
      rewrite (LogFacts.fetch_json_answers u _ j _ log H).
      unfold get, field in *. destruct (lookup "value" j) as [v|]; eauto. }
    destruct E as (v & E & F).
    rewrite (LogFacts.fst_bind_lift _ _ u log v E). now rewrite F.
  - apply LogFacts.try_except_passes.
    rewrite (LogFacts.fst_bind_lift _ _ u log (PList [])); [reflexivity|].
    unfold search_rxnorm_drugs.
    rewrite (LogFacts.fetch_json_answers u (rxnorm_request query) j _ log H).
    unfold get. now rewrite H0.
  - unfold search_drug_nomenclature_tool.
    rewrite (LogFacts.try_except_handles _ _ u log
               (Exn AttributeError
                  ("'" ++ type_name v ++ "' object has no attribute 'get'")));
      [reflexivity | | reflexivity].
    apply LogFacts.fst_bind_raised. unfold search_rxnorm_drugs.
    rewrite (LogFacts.fetch_json_answers u (rxnorm_request query) j _ log H).
    unfold get at 1. rewrite H0.
    destruct v; try reflexivity. now elim (H1 d).
Qed.

(** X4 at a drug-label source that answers with an error object, and at
    nomenclature sources whose [drugGroup] is null or an empty list. *)
Lemma missing_records_at_error_object :
  answers (fun _ => Returned (json_response (PDict [("error", PStr "NOT_FOUND")])))
          (search_drugs_request "zzz" 5) [("error", PStr "NOT_FOUND")]
  /\ fst (search_drugs_tool "zzz" 5
            (fun _ => Returned (json_response (PDict [("error", PStr "NOT_FOUND")]))) [])
     = Returned "No drugs found matching 'zzz'. Try a different search term."
  /\ answers (fun _ => Returned (json_response (PDict [("drugGroup", PNone)])))
             (rxnorm_request "zzz") [("drugGroup", PNone)]
  /\ fst (search_drug_nomenclature_tool "zzz"
            (fun _ => Returned (json_response (PDict [("drugGroup", PNone)]))) [])
     = Returned "Error searching RxNorm: 'NoneType' object has no attribute 'get'"
  /\ fst (search_drug_nomenclature_tool "zzz"
            (fun _ => Returned (json_response (PDict [("drugGroup", PList [])]))) [])
     = Returned "Error searching RxNorm: 'list' object has no attribute 'get'".
Proof.
  assert (H : answers (fun _ => Returned (json_response (PDict [("error", PStr "NOT_FOUND")])))
                (search_drugs_request "zzz" 5) [("error", PStr "NOT_FOUND")])
    by (eexists; split; reflexivity).
  assert (N : answers (fun _ => Returned (json_response (PDict [("drugGroup", PNone)])))
                (rxnorm_request "zzz") [("drugGroup", PNone)])
    by (eexists; split; reflexivity).
  assert (L : answers (fun _ => Returned (json_response (PDict [("drugGroup", PList [])])))
                (rxnorm_request "zzz") [("drugGroup", PList [])])
    by (eexists; split; reflexivity).
  split; [exact H|]. split; [|split; [exact N|split]].
  - exact (proj1 (missing_records_mean_nothing_found _ [] _) "zzz" 5%Z H eq_refl).
  - refine (proj2 (proj2 (proj2 (proj2 (missing_records_mean_nothing_found _ [] _))))
              "zzz" PNone N eq_refl _).
    intros d; discriminate.
  - refine (proj2 (proj2 (proj2 (proj2 (missing_records_mean_nothing_found _ [] _))))
              "zzz" (PList []) L eq_refl _).
    intros d; discriminate.
Defined.

(** X5: a text printed through the cut of the tools (purposes at 200
    characters; warnings, interactions and abstracts at 300) is printed
    whole when it is not longer than the bound, and otherwise as its first
    [n] characters followed by three dots, so on [n + 3] characters. *)
Theorem long_texts_are_cut (n : nat) (s : string) (index : nat) (result : string) :
  clipped (Returned (PStr s)) n = Returned (clip n s)
  /\ numbered_clipped index (PStr s) result
     = Returned (result ++ str_of_nat index ++ ". " ++ clip 300 s ++ nl)
  /\ ((String.length s <= n)%nat -> clip n s = s)
  /\ ((n < String.length s)%nat ->
      clip n s = str_firstn n s ++ "..." /\ String.length (clip n s) = (n + 3)%nat).
Proof.
  split; [apply LoopFacts.clipped_text | split; [|split]].
  - unfold numbered_clipped. now rewrite LoopFacts.clipped_text.
  - apply LoopFacts.clip_short.
  - apply LoopFacts.clip_long.
Qed.

(** X5 at a warning of 6 characters cut at 3 and at 300. *)
Lemma long_texts_are_cut_at_a_short_warning :
  (3 < String.length "abcdef")%nat
  /\ clip 3 "abcdef" = "abc..."
  /\ numbered_clipped 2 (PStr "abcdef") "" = Returned ("2. abcdef" ++ nl).
Proof.
  assert (L : (3 < String.length "abcdef")%nat) by (simpl; lia).
  split; [exact L|]. split.
  - exact (proj1 (proj2 (proj2 (proj2 (long_texts_are_cut 3 "abcdef" 2 ""))) L)).
  - exact (proj1 (proj2 (long_texts_are_cut 300 "abcdef" 2 ""))).
Defined.





(** X8: the nomenclature search reads the first concept group of the
    response only.  When the first group has no [concept] key the tool
    returns its "nothing found" message whatever the later groups hold; the
    same when the response has no [conceptGroup]; and when [conceptGroup]
    is an empty list the tool returns an error message, the index of the
    first group being out of range. *)
Theorem only_the_first_concept_group_is_read
    (query : string) (u : upstream) (log : list request)
    (j g : list (string * pyval)) :
  answers u (rxnorm_request query) j ->
  lookup "drugGroup" j = Some (PDict g) ->
  (forall first others,
      lookup "conceptGroup" g = Some (PList (PDict first :: others)) ->
      fst (search_rxnorm_drugs query u log)
      = Returned (match lookup "concept" first with
                  | Some concepts => concepts
                  | None => PList []
                  end)
      /\ (lookup "concept" first = None ->
          fst (search_drug_nomenclature_tool query u log)
          = Returned (no_rxnorm_message query)))
  /\ (lookup "conceptGroup" g = None ->
      fst (search_drug_nomenclature_tool query u log)
      = Returned (no_rxnorm_message query))
  /\ (lookup "conceptGroup" g = Some (PList []) ->
      fst (search_drug_nomenclature_tool query u log)
      = Returned "Error searching RxNorm: list index out of range").
Proof.
  intros Ha Hg.
  assert (E : fst (search_rxnorm_drugs query u log)
              = (c <- get (PDict g) "conceptGroup" (PList [PDict []]) ;;
                 c0 <- getitem0 c ;; get c0 "concept" (PList []))).
  { unfold search_rxnorm_drugs.
    rewrite (LogFacts.fetch_json_answers u (rxnorm_request query) j _ log Ha).
    unfold get at 1. now rewrite Hg. }
  split; [|split].
  - intros first others Hc.
    assert (F : fst (search_rxnorm_drugs query u log)
                = Returned (match lookup "concept" first with
                            | Some concepts => concepts
                            | None => PList []
                            end)).
    { rewrite E. unfold get. rewrite Hc. cbn [bind getitem0].
      now destruct (lookup "concept" first). }
    split; [exact F|]. intros Hn. rewrite Hn in F.
    apply LogFacts.try_except_passes.
    now rewrite (LogFacts.fst_bind_lift _ _ u log _ F).
  - intros Hn. apply LogFacts.try_except_passes.
    rewrite (LogFacts.fst_bind_lift _ _ u log (PList [])); [reflexivity|].
    rewrite E. unfold get. now rewrite Hn.
  - intros Hn. unfold search_drug_nomenclature_tool.
    rewrite (LogFacts.try_except_handles _ _ u log
               (Exn IndexError "list index out of range"));
      [reflexivity | | reflexivity].
    apply LogFacts.fst_bind_raised. rewrite E. unfold get. now rewrite Hn.
Qed.

(** X8 at a response whose first group is empty and whose second group
    holds a concept. *)
Lemma first_concept_group_at_two_groups :
  answers two_groups (rxnorm_request "aspirin")
          [("drugGroup", PDict [("conceptGroup",
              PList [PDict [("tty", PStr "BPCK")];
                     PDict [("tty", PStr "SBD");
                            ("concept", PList [PDict [("name", PStr "aspirin 81 MG")]])]])])]
  /\ fst (search_drug_nomenclature_tool "aspirin" two_groups [])
     = Returned (no_rxnorm_message "aspirin").
Proof.
  assert (H : answers two_groups (rxnorm_request "aspirin")
                [("drugGroup", PDict [("conceptGroup",
                    PList [PDict [("tty", PStr "BPCK")];
                           PDict [("tty", PStr "SBD");
                                  ("concept", PList [PDict [("name", PStr "aspirin 81 MG")]])]])])])
    by (eexists; split; reflexivity).
  split; [exact H|].
  exact (proj2 (proj1 (only_the_first_concept_group_is_read "aspirin" two_groups [] _ _
                         H eq_refl) _ _ eq_refl) eq_refl).
Defined.

(** X9: for a concept with a name, an identifier, a term type and a
    language, the entry of the nomenclature report has a synonyms line only
    when [synonym] is present and true as a Python value.  A list of
    synonyms prints its first three texts joined by ", ", followed by
    three dots when there are more than three; a synonym given as one text
    is treated as a sequence of characters: its first three characters are
    printed, joined by ", ". *)
Theorem synonyms_line_of_a_concept
    (index : nat) (d : list (string * pyval)) (result : string)
    (name rxcui tty language : pyval) :
  lookup "name" d = Some name -> lookup "rxcui" d = Some rxcui ->
  lookup "tty" d = Some tty -> lookup "language" d = Some language ->
  (truthy (field d "synonym") = false ->
   concept_entry index (PDict d) result
   = Returned (result ++ concept_lines index name rxcui tty language ++ nl))
  /\ (forall s ss,
         lookup "synonym" d = Some (PList (map PStr (s :: ss))) ->
         concept_entry index (PDict d) result
         = Returned (result ++ concept_lines index name rxcui tty language
                     ++ synonyms_line (firstn 3 (s :: ss)) (length (s :: ss)) ++ nl))
  /\ (forall c s,
         lookup "synonym" d = Some (PStr (String c s)) ->
         concept_entry index (PDict d) result
         = Returned (result ++ concept_lines index name rxcui tty language
                     ++ synonyms_line (firstn 3 (chars (String c s)))
                          (String.length (String c s)) ++ nl)).
Proof.
  intros Hn Hr Ht Hl. unfold concept_entry.
  rewrite SectionFacts.present_field. unfold getitem, field, concept_lines, synonyms_line.
  rewrite Hn, Hr, Ht, Hl. cbn [bind]. cbv zeta.
  split; [|split].
  - intros Hf. rewrite Hf. cbn [bind]. f_equal. now rewrite !StrFacts.app_assoc.
  - intros s ss Hs. rewrite Hs. cbn [truthy map bind slice_to len].
    change (list_slice_to 3 (PStr s :: map PStr ss))
      with (firstn 3 (map PStr (s :: ss))).
    rewrite firstn_map, JoinFacts.py_join_texts. cbn [bind length].
    rewrite length_map. f_equal. now rewrite !StrFacts.app_assoc.
  - intros c s Hs. rewrite Hs. cbn [truthy String.eqb negb bind slice_to len py_join].
    change (str_slice_to 3 (String c s)) with (str_firstn 3 (String c s)).
    rewrite JoinFacts.chars_firstn. f_equal. now rewrite !StrFacts.app_assoc.
Qed.

(** X9 at a concept whose synonym is one text. *)
Lemma synonyms_line_of_one_text :
  lookup "synonym" [("name", PStr "aspirin 81 MG"); ("rxcui", PStr "318272");
                    ("tty", PStr "SCD"); ("language", PStr "ENG");
                    ("synonym", PStr "ASA 81 MG")]
  = Some (PStr "ASA 81 MG")
  /\ concept_entry 1
       (PDict [("name", PStr "aspirin 81 MG"); ("rxcui", PStr "318272");
               ("tty", PStr "SCD"); ("language", PStr "ENG");
               ("synonym", PStr "ASA 81 MG")]) ""
     = Returned ("1. **aspirin 81 MG**" ++ nl
                 ++ "   RxCUI: 318272" ++ nl
                 ++ "   Term Type: SCD" ++ nl
                 ++ "   Language: ENG" ++ nl
                 ++ "   Synonyms: A, S, A..." ++ nl ++ nl).
Proof.
  split; [reflexivity|].
  exact (proj2 (proj2 (synonyms_line_of_a_concept 1
           [("name", PStr "aspirin 81 MG"); ("rxcui", PStr "318272");
            ("tty", PStr "SCD"); ("language", PStr "ENG");
            ("synonym", PStr "ASA 81 MG")] "" _ _ _ _
           eq_refl eq_refl eq_refl eq_refl)) "A"%char "SA 81 MG" eq_refl).
Defined.

(** X10: every article that the literature search returns has a PMID
    that is a non-empty text of digits and a title that is a non-empty text
    without the character "<"; its other fields are the fixed
    placeholders of the extractor. *)
Theorem articles_have_digit_pmids_and_plain_titles
    (query : string) (max_results : Z) (u : upstream) (log : list request)
    (articles : list pyval) :
  fst (search_pubmed_articles query max_results u log) = Returned (PList articles) ->
  forall a, In a articles ->
    exists pmid title,
      a = pubmed_article (pmid, title)
      /\ pmid <> "" /\ str_forallb is_digit pmid = true
      /\ title <> "" /\ str_contains_char "<" title = false.
Proof.
  intros H a Ha.
  apply CaptureFacts.search_pubmed_articles_shape in H as (ms & [= ->] & Hms).
  apply in_map_iff in Ha as ([pmid title] & <- & Hm).
  destruct (Hms _ Hm) as [[P1 P2] [T1 T2]].
  exists pmid, title. repeat split; assumption.
Qed.

(** X10 at a literature source with three articles. *)
Lemma articles_of_three_articles :
  exists articles,
    fst (search_pubmed_articles "aspirin" 2 three_articles []) = Returned (PList articles)
    /\ forall a, In a articles ->
         exists pmid title,
           a = pubmed_article (pmid, title)
           /\ pmid <> "" /\ str_forallb is_digit pmid = true
           /\ title <> "" /\ str_contains_char "<" title = false.
Proof.
  eexists. split; [reflexivity|].
  exact (articles_have_digit_pmids_and_plain_titles "aspirin" 2%Z three_articles [] _
           eq_refl).
Defined.

(** X11: when the literature search returns articles, the report is the
    header with their number followed by one entry for each article, in
    order and numbered from 1, and every entry has the title, the PMID and
    the two fixed lines "Journal information not available" and "Date not
    available": the report never has a DOI line, an abstract or authors. *)
Theorem literature_report
    (query : string) (max_results : Z) (u : upstream) (log : list request)
    (first : pyval) (others : list pyval) :
  fst (search_pubmed_articles query max_results u log)
    = Returned (PList (first :: others)) ->
  exists ms,
    first :: others = map pubmed_article ms
    /\ fst (search_medical_literature_tool query max_results u log)
       = Returned (("**Medical Literature Search: '" ++ query ++ "'**" ++ nl ++ nl)
                   ++ ("Found " ++ str_of_nat (length ms) ++ " article(s)" ++ nl ++ nl)
                   ++ numbered_blocks literature_block 1 ms).
Proof.
  intros H. pose proof H as H'.
  apply CaptureFacts.search_pubmed_articles_shape in H' as (ms & [= E] & _).
  exists ms. split; [exact E|].
  apply LogFacts.try_except_passes.
  rewrite (LogFacts.fst_bind_lift _ _ u log _ H).
  cbn [truthy negb len bind iter]. cbv zeta. rewrite E.
  rewrite (LoopFacts.for_enumerate_map_blocks article_entry pubmed_article
             literature_block ms CaptureFacts.article_entry_block).
  rewrite length_map. f_equal. now rewrite !StrFacts.app_assoc.
Qed.

(** X11 at a literature source with three articles. *)
Lemma literature_report_of_three_articles :
  fst (search_pubmed_articles "aspirin" 2 three_articles [])
  = Returned (PList (pubmed_article ("11", "One")
                     :: [pubmed_article ("12", "Two"); pubmed_article ("13", "Three")]))
  /\ exists ms,
       pubmed_article ("11", "One")
       :: [pubmed_article ("12", "Two"); pubmed_article ("13", "Three")]
       = map pubmed_article ms
       /\ fst (search_medical_literature_tool "aspirin" 2 three_articles [])
          = Returned (("**Medical Literature Search: 'aspirin'**" ++ nl ++ nl)
                      ++ ("Found " ++ str_of_nat (length ms) ++ " article(s)" ++ nl ++ nl)
                      ++ numbered_blocks literature_block 1 ms).
Proof.
  assert (E : fst (search_pubmed_articles "aspirin" 2 three_articles [])
              = Returned (PList (pubmed_article ("11", "One")
                                 :: [pubmed_article ("12", "Two");
                                     pubmed_article ("13", "Three")])))
    by (vm_compute; reflexivity).
  split; [exact E|].
  exact (literature_report "aspirin" 2%Z three_articles [] _ _ E).
Defined.



(** X13: a tag that matches the block selector and lies inside a
    candidate block is a candidate block too: where the page nests a block
    of class gs_ri in a block of class gs_r, the scraper goes through both. *)
Theorem nested_blocks_are_candidates (soup outer inner : Soup.element) :
  In outer (candidate_blocks soup) ->
  In inner (Soup.descendants outer) ->
  Soup.matches block_selector inner = true ->
  In inner (candidate_blocks soup).
Proof.
  unfold candidate_blocks, Soup.select. intros Ho Hi Hm.
  apply filter_In in Ho as [Ho _]. apply filter_In. split; [|exact Hm].
  exact (TreeFacts.descendants_trans soup outer inner Ho Hi).
Qed.

(** X13 at a page with one result, marked up as a block in a block: the
    result is returned twice. *)
Lemma nested_blocks_give_two_records :
  In nested_outer (candidate_blocks (Soup.BeautifulSoup nested_page))
  /\ In nested_inner (candidate_blocks (Soup.BeautifulSoup nested_page))
  /\ nested_outer <> nested_inner
  /\ fst (search_google_scholar "aspirin" nested_source [])
     = Returned (PList [block_record nested_outer; block_record nested_inner])
  /\ block_title nested_outer = block_title nested_inner.
Proof.
  assert (Ho : In nested_outer (candidate_blocks (Soup.BeautifulSoup nested_page)))
    by (left; reflexivity).
  split; [exact Ho|]. split; [|split; [discriminate | split; reflexivity]].
  apply (nested_blocks_are_candidates _ nested_outer nested_inner Ho).
  - left. reflexivity.
  - reflexivity.
Defined.

(** X14: when every record of the response can be printed, the report of
    the drug search is the header with the number of records of the
    response followed by one entry for each record, in the order of the
    response and numbered from 1. *)
Theorem drug_search_report
    (query : string) (limit : Z) (u : upstream) (log : list request)
    (j : list (string * pyval)) (x : pyval) (xs : list pyval) :
  answers u (search_drugs_request query limit) j ->
  lookup "results" j = Some (PList (x :: xs)) ->
  Forall printable_drug (x :: xs) ->
  fst (search_drugs_tool query limit u log)
  = Returned (("**Drug Search Results for '" ++ query ++ "'**" ++ nl ++ nl)
              ++ ("Found " ++ str_of_nat (length (x :: xs)) ++ " drug(s)" ++ nl ++ nl)
              ++ numbered_blocks drug_block 1 (x :: xs)).
Proof.
  intros Ha Hr Hp. apply LogFacts.try_except_passes.
  assert (Hs : fst (search_drugs query limit u log) = Returned (PList (x :: xs))).
  { unfold search_drugs. rewrite (LogFacts.fetch_json_answers u _ j _ log Ha).
    unfold get. now rewrite Hr. }
  rewrite (LogFacts.fst_bind_lift _ _ u log _ Hs).
  cbn [truthy negb len bind iter]. cbv zeta.
  rewrite (LoopFacts.for_enumerate_blocks drug_entry drug_block (x :: xs)).
  - f_equal. now rewrite !StrFacts.app_assoc.
  - intros i y r Hy. rewrite Forall_forall in Hp.
    destruct (Hp y Hy) as (d & o & t & -> & Ho & Ht & Hk & Hpu).
    rewrite (ReportFacts.drug_entry_dict i d o t r Ho Ht Hk Hpu).
    unfold drug_block. now rewrite Ho, Ht.
Qed.

(** X14 at a response with two records. *)
Lemma drug_search_report_of_two_records :
  Forall printable_drug [brand_only_drug; unbranded_drug]
  /\ fst (search_drugs_tool "ibuprofen" 5
            (fun _ => Returned (json_response
               (PDict [("results", PList [brand_only_drug; unbranded_drug])]))) [])
     = Returned (("**Drug Search Results for 'ibuprofen'**" ++ nl ++ nl)
                 ++ ("Found 2 drug(s)" ++ nl ++ nl)
                 ++ numbered_blocks drug_block 1 [brand_only_drug; unbranded_drug]).
Proof.
  assert (P : Forall printable_drug [brand_only_drug; unbranded_drug]).
  { repeat constructor.
    - exists [("openfda", PDict [("brand_name", PList [PStr "Advil"])]);
              ("effective_time", PStr "20200101")],
             [("brand_name", PList [PStr "Advil"])], (PStr "20200101").
      repeat split; try reflexivity; [|left; reflexivity].
      intros k [<- | [<- | [<- | [<- | [<- | []]]]]];
        solve [left; reflexivity | right; do 2 eexists; reflexivity].
    - exists [("openfda", PDict [("generic_name", PList [PStr "ibuprofen"])]);
              ("effective_time", PStr "20200101")],
             [("generic_name", PList [PStr "ibuprofen"])], (PStr "20200101").
      repeat split; try reflexivity; [|left; reflexivity].
      intros k [<- | [<- | [<- | [<- | [<- | []]]]]];
        solve [left; reflexivity | right; do 2 eexists; reflexivity]. }
  split; [exact P|].
  refine (drug_search_report "ibuprofen" 5%Z _ []
            [("results", PList [brand_only_drug; unbranded_drug])] _ _ _ eq_refl P).
  eexists; split; reflexivity.
Defined.

(** X15: for a bound of at least 1, when the records that are shown can
    be printed, the report of the health statistics is the header, which
    counts every record of the response, followed by one entry for each of
    the first [limit] records, in source order and numbered from 1; the
    records shown are all the records of the response when [limit] is at
    least their number. *)
Theorem statistics_full_report
    (indicator : string) (country : option string) (limit : Z) (u : upstream)
    (log : list request) (j : list (string * pyval)) (x : pyval) (xs : list pyval) :
  (1 <= limit)%Z ->
  answers u (health_request indicator country) j ->
  lookup "value" j = Some (PList (x :: xs)) ->
  Forall printable_indicator (firstn (Z.to_nat limit) (x :: xs)) ->
  fst (get_health_statistics_tool indicator country limit u log)
  = Returned (statistics_header indicator country (length (x :: xs))
              ++ numbered_blocks indicator_block 1 (firstn (Z.to_nat limit) (x :: xs)))
  /\ ((Z.of_nat (length (x :: xs)) <= limit)%Z ->
      firstn (Z.to_nat limit) (x :: xs) = x :: xs).
Proof.
  intros Hl Ha Hv Hp. split.
  - destruct Ha as (res & Hu & Hj).
    assert (Hg : get (PDict j) "value" (PList []) = Returned (PList (x :: xs)))
      by (unfold get; now rewrite Hv).
    rewrite (ReportFacts.statistics_report indicator country limit u log res (PDict j)
               (x :: xs)
               (numbered_blocks indicator_block 1 (firstn (Z.to_nat limit) (x :: xs)))
               Hu Hj Hg); [reflexivity | discriminate |].
    rewrite (ReportFacts.slice_to_limit limit (x :: xs) Hl).
    rewrite (LoopFacts.for_enumerate_blocks indicator_entry indicator_block);
      [reflexivity|].
    intros i y r Hy. rewrite Forall_forall in Hp.
    destruct (Hp y Hy) as (d & s & t & v & c & n & dt & -> & Hs & Ht & Hv' & Hc & Hn & Hd).
    rewrite (FormatFacts.indicator_entry_dict i d r s t v c n dt Hs Ht Hv' Hc Hn Hd).
    unfold indicator_block, field. now rewrite Hs, Ht, Hv', Hc, Hn, Hd.
  - intros Hn. apply firstn_all2. lia.
Qed.

(** X15 at a source with three records, the third of which is not a
    record, and a bound of two. *)
Lemma statistics_full_report_of_two_of_three :
  (1 <= 2)%Z
  /\ Forall printable_indicator
       (firstn (Z.to_nat 2) [PDict (sample_indicator (PInt 70) (PInt 80));
                             PDict (sample_indicator (PInt 0) (PInt 80)); PInt 7])
  /\ fst (get_health_statistics_tool "Life expectancy" None 2 three_indicators [])
     = Returned (statistics_header "Life expectancy" None 3
                 ++ numbered_blocks indicator_block 1
                      [PDict (sample_indicator (PInt 70) (PInt 80));
                       PDict (sample_indicator (PInt 0) (PInt 80))]).
Proof.
  assert (L : (1 <= 2)%Z) by lia.
  assert (P : Forall printable_indicator
                (firstn (Z.to_nat 2) [PDict (sample_indicator (PInt 70) (PInt 80));
                                      PDict (sample_indicator (PInt 0) (PInt 80));
                                      PInt 7])).
  { repeat constructor; do 7 eexists; repeat split; reflexivity. }
  split; [exact L | split; [exact P|]].
  refine (proj1 (statistics_full_report "Life expectancy" None 2%Z three_indicators []
                   [("value", PList [PDict (sample_indicator (PInt 70) (PInt 80));
                                     PDict (sample_indicator (PInt 0) (PInt 80));
                                     PInt 7])]
                   _ _ L _ eq_refl P)).
  eexists; split; reflexivity.
Defined.

(** X16: the third fallback of the title of a block, the selector [h3],
    never decides: whenever it would find a tag, the first selector, which
    has [h3] among its alternatives, has found one already.  The title
    element is what the first selector finds, or else what [a[data-clk]]
    finds. *)
Theorem third_title_fallback_never_decides (element : Soup.element) :
  title_element_of element
  = Soup.or_else (Soup.select_one title_selector element)
      (Soup.select_one [Soup.Compound [Soup.TypeSel "a"; Soup.HasAttr "data-clk"]]
         element)
  /\ (Soup.select_one title_selector element = None ->
      Soup.select_one [Soup.Compound [Soup.TypeSel "h3"]] element = None).
Proof.
  assert (Dead : Soup.select_one title_selector element = None ->
                 Soup.select_one [Soup.Compound [Soup.TypeSel "h3"]] element = None).
  { unfold Soup.select_one, Soup.select. intros Hn.
    induction (Soup.descendants element) as [|e l IH]; [reflexivity|].
    cbn [filter] in Hn |- *.
    destruct (Soup.matches title_selector e) eqn:Ht; [discriminate Hn|].
    assert (Hh : Soup.matches [Soup.Compound [Soup.TypeSel "h3"]] e = false).
    { unfold Soup.matches, title_selector in Ht |- *. cbn [existsb] in Ht |- *.
      rewrite orb_false_r.
      apply orb_false_elim in Ht as [_ Ht]. apply orb_false_elim in Ht as [_ Ht].
      apply orb_false_elim in Ht as [_ Ht]. rewrite orb_false_r in Ht. exact Ht. }
    rewrite Hh. now apply IH. }
  split; [|exact Dead].
  unfold title_element_of.
  destruct (Soup.select_one title_selector element) eqn:E1; [reflexivity|].
  rewrite (Dead eq_refl). cbn [Soup.or_else].
  now destruct (Soup.select_one
                  [Soup.Compound [Soup.TypeSel "a"; Soup.HasAttr "data-clk"]] element).
Qed.

(** X16 at a page without any heading. *)
Lemma third_title_fallback_at_a_blocked_page :
  Soup.select_one title_selector
    (Soup.BeautifulSoup [Soup.Tag "div" [("id", Soup.AttrStr "gs_captcha_f")]
                           [Soup.NavigableString "Please show you are not a robot"]])
  = None
  /\ Soup.select_one [Soup.Compound [Soup.TypeSel "h3"]]
       (Soup.BeautifulSoup [Soup.Tag "div" [("id", Soup.AttrStr "gs_captcha_f")]
                              [Soup.NavigableString "Please show you are not a robot"]])
     = None.
Proof.
  split; [reflexivity|].
  exact (proj2 (third_title_fallback_never_decides
                  (Soup.BeautifulSoup
                     [Soup.Tag "div" [("id", Soup.AttrStr "gs_captcha_f")]
                        [Soup.NavigableString "Please show you are not a robot"]]))
           eq_refl).
Defined.

